(** * trackman_utils: pitch-level rate statistics

    A shallow embedding of [trackman_utils.py] and the properties of its
    helper functions: the Statcast rate aggregator, the percentile ranker,
    the Trackman per-pitch aggregators, the wOBA lookups and the
    height-band report.

    Conventions of the embedding.
    - A Python exception is a value of [exn]; a function that may raise
      returns a [result].
    - Python [int]s and numpy [int64] scalars are kept apart ([pyint]):
      a true division whose operands are both Python numbers raises
      [ZeroDivisionError] on a zero divisor, a division that involves a numpy
      scalar follows IEEE 754 instead (not-a-number or an infinity).
    - A float is [NaN], an infinity, or a finite value; a finite value is
      represented by the rational number it stands for ([Qc], canonical
      fractions), so rounding and the finite range of binary64 are left out
      of the model.
    - A pandas table is the list of its rows, a [dict] or a label-indexed
      [Series] is a [gmap]. *)

From Stdlib Require Import ZArith QArith Qcanon String List Lia.
From stdpp Require Import gmap strings list fin_maps sorting.
From Equations Require Import Equations.
From Equations.Prop Require Import Logic.
Import ListNotations.

Local Open Scope string_scope.
Local Open Scope Z_scope.

(** ** Exceptions and results *)

Inductive exn : Set :=
| ZeroDivisionError
| IndexError
| KeyError.

Inductive result (A : Type) : Type :=
| Ok (a : A)
| Raise (e : exn).
Arguments Ok {A} a.
Arguments Raise {A} e.

#[global] Instance result_ret : MRet result := fun A a => Ok a.
#[global] Instance result_bind : MBind result := fun A B k m =>
  match m with
  | Ok a => k a
  | Raise e => Raise e
  end.

(** ** Numbers *)

Inductive pyfloat : Type :=
| NaN
| PInf
| NInf
| Fin (q : Qc).

(** A Python [int] (unbounded) or a numpy [int64] scalar (wraps). *)
Inductive pyint : Type :=
| PyInt (z : Z)
| NpInt64 (z : Z).

Definition int_val (n : pyint) : Z :=
  match n with
  | PyInt z => z
  | NpInt64 z => z
  end.

Definition wrap64 (z : Z) : Z := (z + 2 ^ 63) mod 2 ^ 64 - 2 ^ 63.

(** [a + b]: two Python ints add exactly; as soon as one operand is a numpy
    scalar the sum is a numpy [int64]. (A Python int that an [int64] cannot
    hold is not to be added to a numpy scalar: numpy refuses it with an
    [OverflowError], which is outside this model.) *)
Definition int_add (a b : pyint) : pyint :=
  match a, b with
  | PyInt x, PyInt y => PyInt (x + y)
  | _, _ => NpInt64 (wrap64 (int_val a + int_val b))
  end.

Definition is_nan (x : pyfloat) : bool :=
  match x with
  | NaN => true
  | _ => false
  end.

(** [x > y] on floats; every comparison with not-a-number is false. *)
Definition fl_gtb (x y : pyfloat) : bool :=
  match x, y with
  | NaN, _ | _, NaN => false
  | PInf, PInf => false
  | PInf, _ => true
  | _, PInf => false
  | NInf, _ => false
  | _, NInf => true
  | Fin a, Fin b => bool_decide (b < a)%Qc
  end.

(** [x <= y] on floats. *)
Definition fl_leb (x y : pyfloat) : bool :=
  match x, y with
  | NaN, _ | _, NaN => false
  | _, PInf => true
  | PInf, _ => false
  | NInf, _ => true
  | _, NInf => false
  | Fin a, Fin b => bool_decide (a <= b)%Qc
  end.

Definition fl_geb (x y : pyfloat) : bool := fl_leb y x.

(** IEEE 754 addition. *)
Definition fl_add (x y : pyfloat) : pyfloat :=
  match x, y with
  | NaN, _ | _, NaN => NaN
  | PInf, NInf | NInf, PInf => NaN
  | PInf, _ | _, PInf => PInf
  | NInf, _ | _, NInf => NInf
  | Fin a, Fin b => Fin (a + b)
  end.

Definition fl_sign (pos : bool) : pyfloat := if pos then PInf else NInf.

(** IEEE 754 division, the one numpy scalars use: a zero divisor gives
    not-a-number or an infinity, never an exception. *)
Definition np_truediv (x y : pyfloat) : pyfloat :=
  match x, y with
  | NaN, _ | _, NaN => NaN
  | Fin a, Fin b =>
      if bool_decide (b = 0)%Qc then
        if bool_decide (a = 0)%Qc then NaN
        else fl_sign (bool_decide (0 < a)%Qc)
      else Fin (a / b)
  | Fin _, _ => Fin 0
  | _, Fin b =>
      match x with
      | NInf => fl_sign (bool_decide (b < 0)%Qc)
      | _ => fl_sign (bool_decide (0 <= b)%Qc)
      end
  | _, _ => NaN
  end.

(** [a / b] on two Python ints. (For ints a float can hold; beyond that
    Python raises [OverflowError], which is outside this model.) *)
Definition py_truediv (a b : Z) : result pyfloat :=
  if b =? 0 then Raise ZeroDivisionError
  else Ok (Fin (Qc_of_Z a / Qc_of_Z b)).

Definition int_to_float (n : pyint) : pyfloat := Fin (Qc_of_Z (int_val n)).

(** [a / b] on integer counts of either kind. *)
Definition int_truediv (a b : pyint) : result pyfloat :=
  match a, b with
  | PyInt x, PyInt y => py_truediv x y
  | _, _ => Ok (np_truediv (int_to_float a) (int_to_float b))
  end.

(** ** Tables *)

Definition len {A} (l : list A) : Z := Z.of_nat (length l).

(** [Series.isin(values)] on one cell. *)
Definition isin (x : string) (values : list string) : bool :=
  existsb (String.eqb x) values.

(** [Series.sum()] of a float column: missing (not-a-number) cells are
    skipped, the sum of nothing is [0.0]. *)
Definition col_sum (col : list pyfloat) : pyfloat :=
  fold_left fl_add (List.filter (fun x => negb (is_nan x)) col) (Fin 0).

(** One Statcast event. *)
Record statcast_row : Type := {
  description : string;
  events : string;
  strikes : Z;
  pitch_type : string;
  woba_value : pyfloat;
  woba_denom : pyfloat
}.

(** The five rates of one pitcher; the rows of the population table. *)
Record rates : Type := {
  putaway_rate : pyfloat;
  whiff_rate : pyfloat;
  k_rate : pyfloat;
  bb_rate : pyfloat;
  woba : pyfloat
}.

Definition appearance_descriptions : list string :=
  ["hit_by_pitch"; "hit_into_play"; "hit_into_play_no_out"; "hit_into_play_score"].

Definition putaway_descriptions : list string :=
  ["swinging_strike"; "swinging_strike_blocked"; "called_strike"].

Definition whiff_descriptions : list string :=
  ["swinging_strike"; "swinging_strike_blocked"].

Definition swing_descriptions : list string :=
  ["swinging_strike"; "swinging_strike_blocked"; "hit_into_play";
   "hit_into_play_no_out"; "hit_into_play_score"; "foul_tip"; "foul"; "foul_bunt"].

Definition is_appearance (r : statcast_row) : bool :=
  isin (description r) appearance_descriptions
  || isin (events r) ["strikeout"; "walk"].

Definition count_appearances (pitcher : list statcast_row) : Z :=
  len (List.filter is_appearance pitcher).

(** ** agg_statcast_pitchers *)

Definition agg_statcast_pitchers (pitcher : list statcast_row)
    (min_batters_faced : Z) : result rates :=
  let appearances := count_appearances pitcher in
  if appearances <? min_batters_faced then
    Ok {| putaway_rate := NaN; whiff_rate := NaN; k_rate := NaN;
          bb_rate := NaN; woba := NaN |}
  else
    let pitcher_2str := List.filter (fun r => strikes r =? 2) pitcher in
    let putaways :=
      len (List.filter (fun r => isin (description r) putaway_descriptions)
             pitcher_2str) in
    putaway ← py_truediv putaways (len pitcher_2str);
    let whiffs :=
      len (List.filter (fun r => isin (description r) whiff_descriptions) pitcher) in
    let swings :=
      len (List.filter (fun r => isin (description r) swing_descriptions) pitcher) in
    whiff ← py_truediv whiffs swings;
    let strikeouts :=
      len (List.filter (fun r => String.eqb (events r) "strikeout") pitcher) in
    k ← py_truediv strikeouts appearances;
    let walks :=
      len (List.filter (fun r => String.eqb (events r) "walk") pitcher) in
    bb ← py_truediv walks appearances;
    let w := np_truediv (col_sum (map woba_value pitcher))
                        (col_sum (map woba_denom pitcher)) in
    Ok {| putaway_rate := putaway; whiff_rate := whiff; k_rate := k;
          bb_rate := bb; woba := w |}.

(** ** percentile *)

(** The column names of the population table. *)
Inductive stat_name : Set :=
| Putaway_rate
| Whiff_rate
| K_rate
| Bb_rate
| Woba.

(** [row[stat]] *)
Definition get_stat (stat : stat_name) (r : rates) : pyfloat :=
  match stat with
  | Putaway_rate => putaway_rate r
  | Whiff_rate => whiff_rate r
  | K_rate => k_rate r
  | Bb_rate => bb_rate r
  | Woba => woba r
  end.

(** The order [sort_values] sorts by: ascending, not-a-number last. *)
Definition sort_leb (x y : pyfloat) : bool :=
  match x, y with
  | _, NaN => true
  | NaN, _ => false
  | _, _ => fl_leb x y
  end.

Fixpoint insert_row (stat : stat_name) (r : rates) (sorted : list rates)
    : list rates :=
  match sorted with
  | [] => [r]
  | s :: rest =>
      if sort_leb (get_stat stat r) (get_stat stat s) then r :: sorted
      else s :: insert_row stat r rest
  end.

(** [table.sort_values(stat, ascending=True)]; rows with equal keys keep
    their order here, which no caller observes. *)
Definition sort_values (stat : stat_name) (table : list rates) : list rates :=
  fold_right (insert_row stat) [] table.

(** [table.iloc[i]] for a position [i >= 0]. *)
Definition iloc {A} (table : list A) (i : nat) : result A :=
  match table !! i with
  | Some r => Ok r
  | None => Raise IndexError
  end.

(** The loop [while val > sorted_rates.iloc[i][stat]: i += 1], entered at
    position [i]; it returns the position at which it stops. *)
Equations? percentile_loop (val : pyfloat) (stat : stat_name)
    (sorted_rates : list rates) (i : nat) : result nat
    by wf (S (length sorted_rates) - i)%nat lt :=
  percentile_loop val stat sorted_rates i with inspect (sorted_rates !! i) := {
    | exist _ None _ => Raise IndexError
    | exist _ (Some r) Hr with fl_gtb val (get_stat stat r) := {
        | true => percentile_loop val stat sorted_rates (S i)
        | false => Ok i } }.
Proof.
  apply lookup_lt_Some in Hr. lia.
Qed.

Definition percentile (val : pyfloat) (stats_by_pitcher : list rates)
    (stat : stat_name) : result pyfloat :=
  let sorted_rates := sort_values stat stats_by_pitcher in
  i ← percentile_loop val stat sorted_rates 0;
  py_truediv (Z.of_nat i) (len sorted_rates).

(** ** Dictionaries and label-indexed Series *)

(** A number of either sort, where a table may hold both. *)
Inductive pyval : Type :=
| VInt (n : pyint)
| VFloat (f : pyfloat).

(** [k in m] *)
Definition contains {V} (m : gmap string V) (k : string) : bool :=
  bool_decide (is_Some (m !! k)).

(** [m[k]] *)
Definition getitem {V} (m : gmap string V) (k : string) : result V :=
  match m !! k with
  | Some v => Ok v
  | None => Raise KeyError
  end.

(** [s.index]: the labels of a Series. *)
Definition index {V} (s : gmap string V) : list string :=
  (map_to_list s).*1.

(** [for x in xs: body], threading the variables the body assigns. *)
Fixpoint for_each {A S} (xs : list A) (body : S -> A -> result S) (s : S)
    : result S :=
  match xs with
  | [] => Ok s
  | x :: xs' => s' ← body s x; for_each xs' body s'
  end.

(** One Trackman event. *)
Record trackman_row : Type := {
  tagged_pitch_type : string;
  pitch_call : string;
  plate_loc_height : pyfloat;
  plate_loc_side : pyfloat;
  play_result : string;
  k_or_bb : string
}.

(** The outcome counts of a pitcher: pitch type, then outcome label. *)
Abbreviation call_counts := (gmap string (gmap string pyint)).

(** ** compute_putaway *)

(** The body of the inner loop of [compute_putaway]; the state is
    [(total, total_k)]. *)
Definition compute_putaway_row (calls : gmap string pyint)
    (st : pyint * pyint) (row : string) : result (pyint * pyint) :=
  let '(total, total_k) := st in
  total_k ← (if String.eqb row "StrikeSwinging" || String.eqb row "StrikeCalled"
             then c ← getitem calls row; Ok (int_add total_k c)
             else Ok total_k);
  c ← getitem calls row;
  Ok (int_add total c, total_k).

Definition compute_putaway_pitch (calls_by_pitch : call_counts)
    (st : pyint * pyint) (pitch : string) : result (pyint * pyint) :=
  if contains calls_by_pitch pitch then
    calls ← getitem calls_by_pitch pitch;
    for_each (index calls) (compute_putaway_row calls) st
  else Ok st.

Definition compute_putaway (df : list trackman_row)
    (calls_by_pitch : call_counts) : result pyfloat :=
  let pitches : gset string := list_to_set (map tagged_pitch_type df) in
  '(total, total_k) ← for_each (elements pitches)
                         (compute_putaway_pitch calls_by_pitch)
                         (PyInt 0, PyInt 0);
  int_truediv total_k total.

(** ** parse_woba, parse_woba_denom *)

Definition parse_woba (row : trackman_row) (weights : gmap string pyval)
    : result pyval :=
  if negb (String.eqb (play_result row) "Undefined") then
    getitem weights (play_result row)
  else if negb (String.eqb (k_or_bb row) "Undefined") then
    getitem weights (k_or_bb row)
  else Ok (VFloat NaN).

Definition parse_woba_denom (row : trackman_row) (denoms : gmap string pyval)
    : result pyval :=
  if negb (String.eqb (play_result row) "Undefined") then
    getitem denoms (play_result row)
  else if negb (String.eqb (k_or_bb row) "Undefined") then
    getitem denoms (k_or_bb row)
  else Ok (VInt (PyInt 0)).

(** ** parse_whiff, parse_whiff_statcast

    Of their [row] argument both read [row.name] only, the pitch type. *)

Definition parse_whiff (row_name : string) (calls_by_pitch : call_counts)
    : result pyfloat :=
  let swings := PyInt 0 in
  let whiffs := PyInt 0 in
  if contains calls_by_pitch row_name then
    calls ← getitem calls_by_pitch row_name;
    '(whiffs, swings) ←
      (if contains calls "StrikeSwinging" then
         whiffs ← getitem calls "StrikeSwinging";
         Ok (whiffs, int_add swings whiffs)
       else Ok (whiffs, swings));
    swings ← (if contains calls "FoulBall" then
                c ← getitem calls "FoulBall"; Ok (int_add swings c)
              else Ok swings);
    swings ← (if contains calls "InPlay" then
                c ← getitem calls "InPlay"; Ok (int_add swings c)
              else Ok swings);
    if 0 <? int_val swings then int_truediv whiffs swings
    else Ok NaN
  else Ok NaN.

Definition parse_whiff_statcast (row_name : string)
    (all_stats : list statcast_row) : result pyfloat :=
  let all_stats_pitch :=
    List.filter (fun r => String.eqb (pitch_type r) row_name) all_stats in
  let whiffs :=
    len (List.filter (fun r => isin (description r) whiff_descriptions)
           all_stats_pitch) in
  let swings :=
    len (List.filter (fun r => isin (description r) swing_descriptions)
           all_stats_pitch) in
  if swings =? 0 then Ok NaN
  else py_truediv whiffs swings.

(** ** parse_putaway *)

(** The loop body of [parse_putaway]; the state is [(total_k, total)]. *)
Definition parse_putaway_outcome (statcast : bool) (calls : gmap string pyint)
    (st : pyint * pyint) (outcome : string) : result (pyint * pyint) :=
  let '(total_k, total) := st in
  total_k ←
    (if negb statcast then
       if String.eqb outcome "StrikeSwinging" || String.eqb outcome "StrikeCalled"
       then c ← getitem calls outcome; Ok (int_add total_k c)
       else Ok total_k
     else
       if isin outcome putaway_descriptions
       then c ← getitem calls outcome; Ok (int_add total_k c)
       else Ok total_k);
  c ← getitem calls outcome;
  Ok (total_k, int_add total c).

Definition parse_putaway (row_name : string) (calls_by_pitch : call_counts)
    (statcast : bool) : result pyfloat :=
  let total_k := PyInt 0 in
  let total := PyInt 0 in
  if contains calls_by_pitch row_name then
    calls ← getitem calls_by_pitch row_name;
    '(total_k, total) ← for_each (index calls)
                           (parse_putaway_outcome statcast calls)
                           (total_k, total);
    int_truediv total_k total
  else Ok NaN.

(** ** whiff_by_height

    The function returns nothing: what it does is print and plot. The
    embedding records what is emitted, in order, next to the result. *)

(** A height band [(low, high]]. *)
Definition band : Type := Qc * Qc.

Inductive output : Type :=
| PrintInfo (pitch : string) (height : band)
| PrintStat (pitch : string) (label : string) (value : pyval)
| Plot (points : list (pyfloat * pyfloat))
| PrintFreqs (pitch : string) (freqs : list (band * pyfloat)).

Record report (A : Type) : Type := Report {
  out : list output;
  res : result A
}.
Arguments Report {A} out res.
Arguments out {A} r.
Arguments res {A} r.

#[global] Instance report_ret : MRet report := fun A a => Report [] (Ok a).
#[global] Instance report_bind : MBind report := fun A B k m =>
  match res m with
  | Ok a => Report (out m ++ out (k a)) (res (k a))
  | Raise e => Report (out m) (Raise e)
  end.

Definition emit (o : output) : report unit := Report [o] (Ok tt).
Definition lift {A} (r : result A) : report A := Report [] r.

Fixpoint for_each_report {A S} (xs : list A) (body : S -> A -> report S)
    (s : S) : report S :=
  match xs with
  | [] => mret s
  | x :: xs' => s' ← body s x; for_each_report xs' body s'
  end.

(** [freqs[height] = n] on a [dict], which keeps insertion order. *)
Fixpoint dict_set {V} (d : list (band * V)) (k : band) (v : V)
    : list (band * V) :=
  match d with
  | [] => [(k, v)]
  | (k', v') :: d' =>
      if decide (k' = k) then (k', v) :: d' else (k', v') :: dict_set d' k v
  end.

(** [sum(freqs.values())] *)
Definition sum_values (freqs : list (band * Z)) : Z :=
  fold_left Z.add freqs.*2 0.

(** [for height in freqs: freqs[height] /= total]: every key is visited
    once, so each size is replaced by its quotient; the first failing
    division ends the loop. *)
Fixpoint normalize (freqs : list (band * Z)) (total : Z)
    : result (list (band * pyfloat)) :=
  match freqs with
  | [] => Ok []
  | (height, n) :: rest =>
      f ← py_truediv n total;
      rest' ← normalize rest total;
      Ok ((height, f) :: rest')
  end.

(** The universal strike zone. (The bounds are the exact values of the
    decimal literals; the code compares with their binary64 roundings.) *)
Definition lowerb : Qc := Q2Qc (1829 # 100) / Qc_of_Z 12.
Definition upperb : Qc := lowerb + Q2Qc (2579 # 100) / Qc_of_Z 12.
Definition leftb : Qc := Q2Qc (-997 # 100) / Qc_of_Z 12.
Definition rightb : Qc := leftb + Q2Qc (1994 # 100) / Qc_of_Z 12.

(** The rows of [df] in one (pitch type, height band) bucket. *)
Definition in_bucket (pitch : string) (height : band) (r : trackman_row) : bool :=
  String.eqb (tagged_pitch_type r) pitch
  && fl_gtb (plate_loc_height r) (Fin height.1)
  && fl_leb (plate_loc_height r) (Fin height.2).

Definition in_zone (r : trackman_row) : bool :=
  fl_geb (plate_loc_height r) (Fin lowerb)
  && fl_leb (plate_loc_height r) (Fin upperb)
  && fl_geb (plate_loc_side r) (Fin leftb)
  && fl_leb (plate_loc_side r) (Fin rightb).

(** The body of the loop over [heights]; the state is the dict [freqs]. *)
Definition whiff_by_height_band (df : list trackman_row) (pitch : string)
    (freqs : list (band * Z)) (height : band) : report (list (band * Z)) :=
  emit (PrintInfo pitch height);;
  let df_pitch := List.filter (in_bucket pitch height) df in
  let whiffs :=
    len (List.filter (fun r => String.eqb (pitch_call r) "StrikeSwinging") df_pitch) in
  let swings :=
    len (List.filter
           (fun r => isin (pitch_call r) ["StrikeSwinging"; "InPlay"; "FoulBall"])
           df_pitch) in
  whiff_rate ← lift (if 0 <? swings then py_truediv whiffs swings else Ok NaN);
  let clean :=
    len (List.filter
           (fun r => isin (pitch_call r) ["StrikeSwinging"; "StrikeCalled"])
           df_pitch) in
  let chances := len df_pitch in
  let called_str :=
    len (List.filter (fun r => String.eqb (pitch_call r) "StrikeCalled") df_pitch) in
  let strikes := len (List.filter in_zone df_pitch) in
  clean_rate ← lift (py_truediv clean chances);
  emit (PrintStat pitch "clean rate" (VFloat clean_rate));;
  emit (PrintStat pitch "whiff rate" (VFloat whiff_rate));;
  emit (PrintStat pitch "whiffs" (VInt (PyInt whiffs)));;
  emit (PrintStat pitch "called strikes" (VInt (PyInt called_str)));;
  emit (PrintStat pitch "swings" (VInt (PyInt swings)));;
  emit (PrintStat pitch "strikes" (VInt (PyInt strikes)));;
  emit (PrintStat pitch "chances" (VInt (PyInt chances)));;
  let freqs := dict_set freqs height (len df_pitch) in
  emit (Plot (map (fun r => (plate_loc_side r, plate_loc_height r)) df_pitch));;
  mret freqs.

(** The body of the loop over [pitches]. *)
Definition whiff_by_height_pitch (df : list trackman_row) (heights : list band)
    (_ : unit) (pitch : string) : report unit :=
  freqs ← for_each_report heights (whiff_by_height_band df pitch) [];
  let total := sum_values freqs in
  freqs ← lift (normalize freqs total);
  emit (PrintFreqs pitch freqs).

Definition whiff_by_height (pitches : list string) (df : list trackman_row)
    (heights : list band) (putaway : bool) : report unit :=
  for_each_report pitches (whiff_by_height_pitch df heights) tt.

(** ** Auxiliary definitions used by the statements *)

(** The record returned for a pitcher below the sample-size threshold. *)
Definition nan_rates : rates :=
  {| putaway_rate := NaN; whiff_rate := NaN; k_rate := NaN;
     bb_rate := NaN; woba := NaN |}.

(** The pitches thrown with two strikes. *)
Definition two_strike_subset (pitcher : list statcast_row) : list statcast_row :=
  List.filter (fun r => strikes r =? 2) pitcher.

(** The loop of [percentile] read on the rows that remain from position [i]
    on: it stops at the first row the value does not exceed, and indexes
    past the end when there is none. *)
Fixpoint scan_rows (val : pyfloat) (stat : stat_name) (rest : list rates)
    (i : nat) : result nat :=
  match rest with
  | [] => Raise IndexError
  | r :: rest' =>
      if fl_gtb val (get_stat stat r) then scan_rows val stat rest' (S i)
      else Ok i
  end.

(** ** The whiff rate of the specification *)

(** The outcome labels of a feed that count as a swing, by sort. *)
Record vocabulary : Type := {
  swinging : list string;
  fouls : list string;
  in_play : list string
}.

Definition trackman_vocabulary : vocabulary :=
  {| swinging := ["StrikeSwinging"];
     fouls := ["FoulBall"];
     in_play := ["InPlay"] |}.

Definition statcast_vocabulary : vocabulary :=
  {| swinging := ["swinging_strike"; "swinging_strike_blocked"];
     fouls := ["foul_tip"; "foul"; "foul_bunt"];
     in_play := ["hit_into_play"; "hit_into_play_no_out"; "hit_into_play_score"] |}.

Definition swing_labels (v : vocabulary) : list string :=
  swinging v ++ fouls v ++ in_play v.

Definition sum_counts (count : string → Z) (labels : list string) : Z :=
  foldr (fun l acc => count l + acc) 0 labels.

(** The whiff rate in the words of the specification: the whiff count is
    that of the swinging variants, the swing count that of the swinging
    variants, the fouls and the balls in play; the rate is their ratio, and
    not-a-number when there is no swing. [count] gives the number of
    pitches of the pitch type with a given outcome. *)
Definition whiff_rate_spec (v : vocabulary) (count : string → Z) : pyfloat :=
  let whiffs := sum_counts count (swinging v) in
  let swings := sum_counts count (swing_labels v) in
  if swings =? 0 then NaN else Fin (Qc_of_Z whiffs / Qc_of_Z swings).

(** The count an outcome-count mapping holds for a pitch type and an
    outcome; what is absent counts for nothing. *)
Definition trackman_count (calls_by_pitch : call_counts) (pitch label : string)
    : Z :=
  match calls_by_pitch !! pitch with
  | Some calls => from_option int_val 0 (calls !! label)
  | None => 0
  end.

(** The number of rows of an event table with a pitch type and a
    description. *)
Definition statcast_count (all_stats : list statcast_row) (pitch label : string)
    : Z :=
  len (List.filter
         (fun r => String.eqb (pitch_type r) pitch
                   && String.eqb (description r) label)
         all_stats).

(** [swings += c] when the label is there, nothing otherwise. *)
Definition add_count (swings : pyint) (c : option pyint) : pyint :=
  match c with
  | Some c => int_add swings c
  | None => swings
  end.

Definition indicator (b : bool) : Z := if b then 1 else 0.

(** ** Bucket sizes of the height-band report *)

(** The number of rows in one (pitch type, height band) bucket. *)
Definition bucket_count (df : list trackman_row) (pitch : string)
    (height : band) : Z :=
  len (List.filter (in_bucket pitch height) df).

(** The bucket counts of a pitch type, summed over the supplied bands. *)
Definition total_bucket_count (df : list trackman_row) (pitch : string)
    (heights : list band) : Z :=
  foldr (fun height acc => bucket_count df pitch height + acc) 0 heights.

Definition is_freqs (o : output) : bool :=
  match o with
  | PrintFreqs _ _ => true
  | _ => false
  end.

(** The dict of bucket sizes holds positive sizes only, since the loop does
    not get past an empty bucket. *)
Definition positive_sizes (freqs : list (band * Z)) : Prop :=
  Forall (fun kv => 0 < kv.2) freqs.

(** ** Sample data *)

Definition one_half : Qc := Q2Qc (1 # 2).

Definition tenths (n : Z) : Qc := Qc_of_Z n / Qc_of_Z 10.

(** A ball put in play with one strike. *)
Definition one_ball_in_play : statcast_row :=
  {| description := "hit_into_play"; events := "field_out"; strikes := 1;
     pitch_type := "FF"; woba_value := Fin 0; woba_denom := Fin 1 |}.

(** A pitcher whose five rates all are [q]. *)
Definition rated (q : Qc) : rates :=
  {| putaway_rate := Fin q; whiff_rate := Fin q; k_rate := Fin q;
     bb_rate := Fin q; woba := Fin q |}.

Definition population_123 : list rates :=
  [rated (tenths 3); rated (tenths 1); rated (tenths 2)].

Definition pitch_at (pitch call : string) (height : Qc) : trackman_row :=
  {| tagged_pitch_type := pitch; pitch_call := call;
     plate_loc_height := Fin height; plate_loc_side := Fin 0;
     play_result := "Undefined"; k_or_bb := "Undefined" |}.

(** An event with a play result and a strikeout/walk label. *)
Definition event_row (play label : string) : trackman_row :=
  {| tagged_pitch_type := "Fastball"; pitch_call := "InPlay";
     plate_loc_height := Fin 2; plate_loc_side := Fin 0;
     play_result := play; k_or_bb := label |}.

(** The outcome counts of one fastball, as Python ints or as the [int64]
    cells of a pandas Series. *)
Definition fastball_counts (k : Z → pyint) : call_counts :=
  {[ "Fastball" := {[ "StrikeSwinging" := k 3; "StrikeCalled" := k 2;
                      "BallCalled" := k 5 ]} ]}.

Definition swing_counts : call_counts :=
  {[ "Fastball" := {[ "StrikeSwinging" := NpInt64 3; "FoulBall" := NpInt64 4;
                      "InPlay" := NpInt64 5; "BallCalled" := NpInt64 8 ]} ]}.

Definition woba_weights : gmap string pyval :=
  {[ "Single" := VFloat (Fin (tenths 9)); "Walk" := VFloat (Fin (tenths 7));
     "Strikeout" := VFloat (Fin 0) ]}.

Definition woba_denoms : gmap string pyval :=
  {[ "Single" := VInt (PyInt 1); "Walk" := VInt (PyInt 1);
     "Strikeout" := VInt (PyInt 1) ]}.

Definition three_fastballs : list trackman_row :=
  [pitch_at "Fastball" "StrikeSwinging" (Q2Qc (3 # 2));
   pitch_at "Fastball" "BallCalled" (Q2Qc (5 # 2));
   pitch_at "Fastball" "InPlay" (Q2Qc (27 # 10))].

Definition low_band : band := (Qc_of_Z 1, Qc_of_Z 2).

Definition high_band : band := (Qc_of_Z 2, Qc_of_Z 3).

Definition fastball_shares : list (band * pyfloat) :=
  [(low_band, Fin (Qc_of_Z 1 / Qc_of_Z 3));
   (high_band, Fin (Qc_of_Z 2 / Qc_of_Z 3))].

(** ** parse_prop *)

(** The table handed to [parse_prop]: Trackman rows have a
    [tagged_pitch_type] column and no [pitch_type] column, Statcast rows the
    reverse. *)
Inductive frame : Type :=
| Trackman (df : list trackman_row)
| Statcast (df : list statcast_row).

(** [len(df)] *)
Definition frame_len (df : frame) : Z :=
  match df with
  | Trackman rows => len rows
  | Statcast rows => len rows
  end.

(** [df['tagged_pitch_type']] and [df['pitch_type']]; a column the table
    does not have is a [KeyError]. *)
Definition frame_tagged_pitch_type (df : frame) : result (list string) :=
  match df with
  | Trackman rows => Ok (map tagged_pitch_type rows)
  | Statcast _ => Raise KeyError
  end.

Definition frame_pitch_type (df : frame) : result (list string) :=
  match df with
  | Trackman _ => Raise KeyError
  | Statcast rows => Ok (map pitch_type rows)
  end.

(** [len(df[column == name])] *)
Definition count_label (column : list string) (name : string) : Z :=
  len (List.filter (fun x => String.eqb x name) column).

Definition parse_prop (row_name : string) (df : frame) (statcast : bool)
    : result pyfloat :=
  if negb statcast then
    column ← frame_tagged_pitch_type df;
    py_truediv (count_label column row_name) (frame_len df)
  else
    column ← frame_pitch_type df;
    py_truediv (count_label column row_name) (frame_len df).

(** ** Further definitions used by the statements *)

(** A call that returns. *)
Definition is_ok {A} (r : result A) : Prop :=
  match r with
  | Ok _ => True
  | Raise _ => False
  end.

(** [f] applied to what a call returns. *)
Definition result_map {A B} (f : A → B) (r : result A) : result B :=
  match r with
  | Ok a => Ok (f a)
  | Raise e => Raise e
  end.

(** A float that is a fraction between 0 and 1. *)
Definition unit_fraction (x : pyfloat) : Prop :=
  match x with
  | Fin q => (0 <= q)%Qc ∧ (q <= 1)%Qc
  | _ => False
  end.

(** The rows of a population the value exceeds. *)
Definition count_below (val : pyfloat) (stat : stat_name)
    (stats_by_pitcher : list rates) : Z :=
  len (List.filter (fun r => fl_gtb val (get_stat stat r)) stats_by_pitcher).

(** The order of the rows after [sort_values]. *)
Definition row_le (stat : stat_name) (r s : rates) : Prop :=
  sort_leb (get_stat stat r) (get_stat stat s) = true.

(** The rows on which the batter swung. *)
Definition swing_rows (pitcher : list statcast_row) : list statcast_row :=
  List.filter (fun r => isin (description r) swing_descriptions) pitcher.

(** The four rates of a pitcher that are ratios of row counts. *)
Definition count_rates (r : rates) : pyfloat * pyfloat * pyfloat * pyfloat :=
  (putaway_rate r, whiff_rate r, k_rate r, bb_rate r).

(** A swinging third strike. *)
Definition one_strikeout : statcast_row :=
  {| description := "swinging_strike"; events := "strikeout"; strikes := 2;
     pitch_type := "FF"; woba_value := Fin 0; woba_denom := Fin 1 |}.

(** The outcome labels [parse_putaway] counts as putaways, by feed flag. *)
Definition is_putaway_call (statcast : bool) (outcome : string) : bool :=
  if statcast then isin outcome putaway_descriptions
  else String.eqb outcome "StrikeSwinging" || String.eqb outcome "StrikeCalled".

(** The counts of a list of (outcome, count) cells, those of the outcomes
    to keep, as integers. *)
Definition cells_sum (keep : string → bool) (cells : list (string * pyint)) : Z :=
  foldr (fun cell acc => (if keep cell.1 then int_val cell.2 else 0) + acc)
    0 cells.

(** The same for the cells of a Series. *)
Definition series_sum (keep : string → bool) (calls : gmap string pyint) : Z :=
  cells_sum keep (map_to_list calls).


Definition swap_totals (st : pyint * pyint) : pyint * pyint := (st.2, st.1).

(** A call that returns, or raises [ZeroDivisionError] and nothing else. *)
Definition ok_or_zero_division {A} (r : result A) : Prop :=
  match r with
  | Ok _ => True
  | Raise e => e = ZeroDivisionError
  end.

(** The value of the [statcast] flag that fits a table. *)
Definition frame_feed (df : frame) : bool :=
  match df with
  | Trackman _ => false
  | Statcast _ => true
  end.


(** The pitch types of the frequency mappings among what was printed, in
    the order printed. *)
Definition freqs_pitches (printed : list output) : list string :=
  omap (fun o => match o with
                 | PrintFreqs pitch _ => Some pitch
                 | _ => None
                 end) printed.

(** ** Definitions for the ranges in which the number model is exact *)

(** A numpy [int64] scalar, with a value an [int64] can hold. *)
Definition is_int64 (n : pyint) : Prop :=
  match n with
  | NpInt64 z => - 2 ^ 63 <= z < 2 ^ 63
  | PyInt _ => False
  end.

(** Outcome counts as a pandas group-by gives them: every count a numpy
    [int64] scalar. *)
Definition int64_counts (calls_by_pitch : call_counts) : Prop :=
  map_Forall (fun _ calls => map_Forall (fun _ c => is_int64 c) calls)
    calls_by_pitch.

(** The rows of a pitch type on which the batter swung. *)
Definition pitch_swing_rows (all_stats : list statcast_row) (pitch : string)
    : list statcast_row :=
  swing_rows (List.filter (fun r => String.eqb (pitch_type r) pitch) all_stats).

(** A band above every pitch of the sample tables. *)
Definition empty_band : band := (Qc_of_Z 4, Qc_of_Z 5).

(** Two fastballs and a slider. *)
Definition two_pitch_types : list trackman_row :=
  [pitch_at "Fastball" "StrikeCalled" 2; pitch_at "Slider" "BallCalled" 1;
   pitch_at "Fastball" "InPlay" 2].

(** A taken strike: no swing. *)
Definition one_called_strike : statcast_row :=
  {| description := "called_strike"; events := "field_out"; strikes := 1;
     pitch_type := "SL"; woba_value := Fin 0; woba_denom := Fin 0 |}.

(** * Properties *)

(** ** Numbers *)

Lemma py_truediv_ok a b :
  b ≠ 0 → py_truediv a b = Ok (Fin (Qc_of_Z a / Qc_of_Z b)).
Proof.
  intros Hb. unfold py_truediv.
  destruct (Z.eqb_spec b 0) as [->|_]; [congruence | reflexivity].
Qed.

Lemma py_truediv_inv a b p :
  py_truediv a b = Ok p → b ≠ 0 ∧ p = Fin (Qc_of_Z a / Qc_of_Z b).
Proof.
  unfold py_truediv. destruct (Z.eqb_spec b 0); [discriminate |].
  intros [= <-]. auto.
Qed.

Lemma len_nonneg {A} (l : list A) : 0 <= len l.
Proof. unfold len. lia. Qed.

(** ** agg_statcast_pitchers *)

(** C3. A pitcher whose appearance count (rows described as hit by pitch or
    as one of the three balls in play, or ending in a strikeout or a walk) is
    below the threshold gets not-a-number in all five fields, whatever the
    rest of the table is: nothing else is computed, so nothing can raise. *)
Theorem agg_statcast_pitchers_below_threshold
    (pitcher : list statcast_row) (min_batters_faced : Z) :
  count_appearances pitcher < min_batters_faced →
  agg_statcast_pitchers pitcher min_batters_faced = Ok nan_rates.
Proof.
  intros Hlt. unfold agg_statcast_pitchers.
  destruct (Z.ltb_spec (count_appearances pitcher) min_batters_faced); [| lia].
  reflexivity.
Qed.

Lemma agg_statcast_pitchers_below_threshold_witness :
  count_appearances [one_ball_in_play] < 5
  ∧ agg_statcast_pitchers [one_ball_in_play] 5 = Ok nan_rates.
Proof.
  split; [reflexivity |].
  apply (agg_statcast_pitchers_below_threshold [one_ball_in_play] 5).
  reflexivity.
Defined.

(** C1. The putaway division of the rate aggregator has no guard: a pitcher
    who meets the threshold and has no two-strike pitch makes it raise
    [ZeroDivisionError], where not-a-number is asked for. *)
Theorem agg_statcast_pitchers_no_two_strikes_raises
    (pitcher : list statcast_row) (min_batters_faced : Z) :
  min_batters_faced <= count_appearances pitcher →
  two_strike_subset pitcher = [] →
  agg_statcast_pitchers pitcher min_batters_faced = Raise ZeroDivisionError.
Proof.
  intros Hge Hempty. unfold agg_statcast_pitchers.
  destruct (Z.ltb_spec (count_appearances pitcher) min_batters_faced); [lia |].
  fold (two_strike_subset pitcher). rewrite Hempty. reflexivity.
Qed.

Lemma agg_statcast_pitchers_no_two_strikes_raises_witness :
  1 <= count_appearances [one_ball_in_play]
  ∧ two_strike_subset [one_ball_in_play] = []
  ∧ agg_statcast_pitchers [one_ball_in_play] 1 = Raise ZeroDivisionError.
Proof.
  split; [| split]; [by vm_compute | reflexivity |].
  apply (agg_statcast_pitchers_no_two_strikes_raises [one_ball_in_play] 1);
    [by vm_compute | reflexivity].
Defined.

(** The whiff division is unguarded in the same way. *)
Lemma agg_statcast_pitchers_no_swing_raises :
  agg_statcast_pitchers
    [{| description := "called_strike"; events := "strikeout"; strikes := 2;
        pitch_type := "FF"; woba_value := Fin 0; woba_denom := Fin 1 |}] 1
  = Raise ZeroDivisionError.
Proof. reflexivity. Qed.

(** The wOBA division is numpy's: a zero denominator under a non-zero
    numerator gives an infinity, and no exception. *)
Lemma agg_statcast_pitchers_woba_infinite :
  ∃ r, agg_statcast_pitchers
         [{| description := "swinging_strike"; events := "strikeout";
             strikes := 2; pitch_type := "FF";
             woba_value := Fin 1; woba_denom := Fin 0 |}] 1 = Ok r
       ∧ woba r = PInf.
Proof. eexists. split; [reflexivity |]. by vm_compute. Qed.

(** ** percentile *)

Section Percentile.
Variables (val : pyfloat) (stat : stat_name).

Lemma percentile_loop_scan_rows (sorted_rates : list rates) (i : nat) :
  percentile_loop val stat sorted_rates i
  = scan_rows val stat (drop i sorted_rates) i.
Proof.
  funelim (percentile_loop val stat sorted_rates i); try clear Heqcall.
  - rewrite drop_ge; [reflexivity |]. by apply lookup_ge_None.
  - rewrite (drop_S _ _ _ Hr). simpl. by rewrite Heq.
  - rewrite (drop_S _ _ _ Hr). simpl. by rewrite Heq.
Qed.

Lemma scan_rows_all_above (rest : list rates) (i : nat) :
  Forall (fun r => fl_gtb val (get_stat stat r) = true) rest →
  scan_rows val stat rest i = Raise IndexError.
Proof.
  intros Hall. revert i.
  induction Hall as [| r rest Hr _ IH]; intros i; simpl; [reflexivity |].
  rewrite Hr. apply IH.
Qed.

(** Where the scan stops, it has not passed the end. *)
Lemma scan_rows_bound (rest : list rates) (i j : nat) :
  scan_rows val stat rest i = Ok j → (i <= j < i + length rest)%nat.
Proof.
  revert i. induction rest as [| r rest IH]; intros i; simpl; [discriminate |].
  destruct (fl_gtb val (get_stat stat r)).
  - intros Hj. apply IH in Hj. lia.
  - intros [= <-]. lia.
Qed.
End Percentile.

Lemma insert_row_Forall (P : rates → Prop) stat r sorted :
  P r → Forall P sorted → Forall P (insert_row stat r sorted).
Proof.
  intros Hr Hs. induction Hs as [| s rest Hs Hrest IH]; simpl.
  - by constructor.
  - destruct (sort_leb _ _); repeat constructor; auto.
Qed.

Lemma sort_values_Forall (P : rates → Prop) stat table :
  Forall P table → Forall P (sort_values stat table).
Proof.
  induction 1 as [| r table Hr _ IH]; simpl; [constructor |].
  by apply insert_row_Forall.
Qed.

Lemma insert_row_length stat r sorted :
  length (insert_row stat r sorted) = S (length sorted).
Proof.
  induction sorted as [| s rest IH]; simpl; [reflexivity |].
  destruct (sort_leb _ _); simpl; congruence.
Qed.

Lemma sort_values_length stat table :
  length (sort_values stat table) = length table.
Proof.
  induction table as [| r table IH]; simpl; [reflexivity |].
  by rewrite insert_row_length, IH.
Qed.

(** A larger value exceeds whatever a smaller one exceeds. *)
Lemma fl_gtb_mono (v1 v2 x : pyfloat) :
  fl_leb v1 v2 = true → fl_gtb v1 x = true → fl_gtb v2 x = true.
Proof.
  destruct v1 as [| | | a], v2 as [| | | b], x as [| | | c]; simpl; try done.
  rewrite !bool_decide_eq_true. intros Hab Hca.
  by apply Qclt_le_trans with a.
Qed.

Lemma scan_rows_mono (v1 v2 : pyfloat) stat rest i j1 j2 :
  fl_leb v1 v2 = true →
  scan_rows v1 stat rest i = Ok j1 →
  scan_rows v2 stat rest i = Ok j2 →
  (j1 <= j2)%nat.
Proof.
  intros Hle. revert i.
  induction rest as [| r rest IH]; intros i; simpl; [discriminate |].
  destruct (fl_gtb v1 (get_stat stat r)) eqn:H1.
  - rewrite (fl_gtb_mono _ _ _ Hle H1). apply IH.
  - intros [= <-] H2.
    destruct (fl_gtb v2 (get_stat stat r)).
    + apply scan_rows_bound in H2. lia.
    + injection H2 as <-. lia.
Qed.

Lemma ratio_le_mono (a b n : Z) :
  a <= b → 0 < n → (Qc_of_Z a / Qc_of_Z n <= Qc_of_Z b / Qc_of_Z n)%Qc.
Proof.
  intros Hab Hn. unfold Qcdiv.
  apply Qcmult_le_mono_nonneg_r.
  - apply Qclt_le_weak, Qcinv_pos.
    rewrite <- Z2Qc_inj_0. by apply (proj1 (Z2Qc_inj_lt 0 n)).
  - by apply (proj1 (Z2Qc_inj_le a b)).
Qed.

(** C2. A value above every entry of the population makes the scan index
    one row past the end of the sorted table: [percentile] raises
    [IndexError], where [1.0] is asked for. *)
Theorem percentile_above_population_raises
    (val : pyfloat) (stats_by_pitcher : list rates) (stat : stat_name) :
  Forall (fun r => fl_gtb val (get_stat stat r) = true) stats_by_pitcher →
  percentile val stats_by_pitcher stat = Raise IndexError.
Proof.
  intros Hall. unfold percentile.
  rewrite percentile_loop_scan_rows, drop_0.
  rewrite scan_rows_all_above; [reflexivity |].
  by apply sort_values_Forall.
Qed.

Lemma percentile_above_population_raises_witness :
  percentile (Fin (tenths 9)) [rated (tenths 5); rated (tenths 6)] Whiff_rate
  = Raise IndexError.
Proof.
  apply (percentile_above_population_raises
           (Fin (tenths 9)) [rated (tenths 5); rated (tenths 6)] Whiff_rate).
  repeat constructor.
Defined.

(** C8. For a fixed population and statistic, [percentile] is monotone in
    the value: of two values [v1 <= v2] on which it returns, the second gets
    the larger (or the same) result. No assumption on the population is
    needed. *)
Theorem percentile_monotone
    (v1 v2 : pyfloat) (stats_by_pitcher : list rates) (stat : stat_name)
    (p1 p2 : pyfloat) :
  fl_leb v1 v2 = true →
  percentile v1 stats_by_pitcher stat = Ok p1 →
  percentile v2 stats_by_pitcher stat = Ok p2 →
  fl_leb p1 p2 = true.
Proof.
  intros Hle. unfold percentile.
  rewrite !percentile_loop_scan_rows, !drop_0.
  destruct (scan_rows v1 _ _ _) as [j1 |] eqn:H1; [| discriminate].
  destruct (scan_rows v2 _ _ _) as [j2 |] eqn:H2; [| discriminate].
  simpl. intros Hp1 Hp2.
  apply py_truediv_inv in Hp1 as [Hn ->].
  apply py_truediv_inv in Hp2 as [_ ->].
  simpl. rewrite bool_decide_eq_true.
  apply ratio_le_mono.
  - pose proof (scan_rows_mono _ _ _ _ _ _ _ Hle H1 H2). lia.
  - pose proof (len_nonneg (sort_values stat stats_by_pitcher)). lia.
Qed.

Lemma percentile_monotone_witness :
  fl_leb (Fin (Qc_of_Z 0 / Qc_of_Z 3)) (Fin (Qc_of_Z 2 / Qc_of_Z 3)) = true.
Proof.
  apply (percentile_monotone (Fin (tenths 1)) (Fin (Q2Qc (1 # 4)))
           population_123 K_rate); by vm_compute.
Defined.

(** Two more readings of the ranker: a value inside the population, and a
    value below all of it. *)
Example percentile_inside :
  percentile (Fin (Q2Qc (1 # 4))) population_123 Woba
  = Ok (Fin (Qc_of_Z 2 / Qc_of_Z 3)).
Proof. by vm_compute. Qed.

Example percentile_below :
  percentile (Fin (tenths 1)) [rated (tenths 5); rated (tenths 6)] Woba
  = Ok (Fin (Qc_of_Z 0 / Qc_of_Z 2)).
Proof. by vm_compute. Qed.

(** ** compute_putaway *)

Lemma contains_None {V} (m : gmap string V) (k : string) :
  m !! k = None → contains m k = false.
Proof.
  intros Hk. unfold contains. rewrite Hk.
  apply bool_decide_eq_false. by intros [v Hv].
Qed.

Lemma contains_Some {V} (m : gmap string V) (k : string) (v : V) :
  m !! k = Some v → contains m k = true ∧ getitem m k = Ok v.
Proof.
  intros Hk. unfold contains, getitem. rewrite Hk. split; [| reflexivity].
  apply bool_decide_eq_true. by exists v.
Qed.

(** A loop whose body leaves the state alone at every element leaves it
    alone. *)
Lemma for_each_unchanged {A S} (xs : list A) (body : S → A → result S) (s : S) :
  Forall (fun x => body s x = Ok s) xs → for_each xs body s = Ok s.
Proof.
  induction 1 as [| x xs Hx _ IH]; simpl; [reflexivity |].
  rewrite Hx. simpl. exact IH.
Qed.

(** No pitch type of the table is counted: the loop over the pitch types
    changes nothing. *)
Lemma compute_putaway_loop_unchanged
    (df : list trackman_row) (calls_by_pitch : call_counts) (st : pyint * pyint) :
  Forall (fun r => calls_by_pitch !! tagged_pitch_type r = None) df →
  for_each (elements (list_to_set (map tagged_pitch_type df) : gset string))
    (compute_putaway_pitch calls_by_pitch) st
  = Ok st.
Proof.
  intros Hnone. apply for_each_unchanged, Forall_forall. intros pitch Hin.
  apply elem_of_elements, elem_of_list_to_set, list_elem_of_fmap in Hin
    as (r & -> & Hr).
  rewrite Forall_forall in Hnone.
  unfold compute_putaway_pitch. by rewrite contains_None; [| apply Hnone].
Qed.

(** C10. When no pitch type of the event table is a key of the outcome
    counts (an empty table and an empty mapping included), both totals of
    [compute_putaway] are still the Python [0] they started as, and the last
    line divides them: [ZeroDivisionError], not not-a-number. *)
Theorem compute_putaway_no_counted_pitch_raises
    (df : list trackman_row) (calls_by_pitch : call_counts) :
  Forall (fun r => calls_by_pitch !! tagged_pitch_type r = None) df →
  compute_putaway df calls_by_pitch = Raise ZeroDivisionError.
Proof.
  intros Hnone. unfold compute_putaway.
  by rewrite compute_putaway_loop_unchanged.
Qed.

Lemma compute_putaway_no_counted_pitch_raises_witness :
  compute_putaway [pitch_at "Slider" "StrikeCalled" 2] (fastball_counts NpInt64)
  = Raise ZeroDivisionError.
Proof.
  apply (compute_putaway_no_counted_pitch_raises
           [pitch_at "Slider" "StrikeCalled" 2] (fastball_counts NpInt64)).
  repeat constructor.
Defined.

Lemma compute_putaway_empty_table (calls_by_pitch : call_counts) :
  compute_putaway [] calls_by_pitch = Raise ZeroDivisionError.
Proof. reflexivity. Qed.

Lemma compute_putaway_empty_mapping (df : list trackman_row) :
  compute_putaway df ∅ = Raise ZeroDivisionError.
Proof.
  unfold compute_putaway.
  rewrite compute_putaway_loop_unchanged; [reflexivity |].
  apply Forall_forall. intros r _. apply lookup_empty.
Qed.

(** With a counted pitch the totals are what the Series holds; zero counts
    held as numpy scalars divide to not-a-number. *)
Example compute_putaway_numpy_zero :
  compute_putaway [pitch_at "Fastball" "BallCalled" 2]
    {[ "Fastball" := {[ "BallCalled" := NpInt64 0 ]} ]}
  = Ok NaN.
Proof. by vm_compute. Qed.

Example compute_putaway_fastball :
  compute_putaway [pitch_at "Fastball" "BallCalled" 2] (fastball_counts NpInt64)
  = Ok (Fin (Qc_of_Z 5 / Qc_of_Z 10)).
Proof. by vm_compute. Qed.

(** ** parse_putaway *)

(** C6. A pitch type that is not a key of the outcome counts gets
    not-a-number from [parse_putaway], under either vocabulary, and nothing
    is raised. *)
Theorem parse_putaway_absent
    (row_name : string) (calls_by_pitch : call_counts) (statcast : bool) :
  calls_by_pitch !! row_name = None →
  parse_putaway row_name calls_by_pitch statcast = Ok NaN.
Proof.
  intros Habsent. unfold parse_putaway.
  by rewrite (contains_None _ _ Habsent).
Qed.

Lemma parse_putaway_absent_witness :
  parse_putaway "Curveball" (fastball_counts NpInt64) false = Ok NaN
  ∧ parse_putaway "Curveball" (fastball_counts NpInt64) true = Ok NaN.
Proof.
  split.
  - apply (parse_putaway_absent "Curveball" (fastball_counts NpInt64) false).
    reflexivity.
  - apply (parse_putaway_absent "Curveball" (fastball_counts NpInt64) true).
    reflexivity.
Defined.

Lemma five_tenths : (Qc_of_Z 5 / Qc_of_Z 10)%Qc = one_half.
Proof. by apply Qc_is_canon. Qed.

Lemma zero_tenths : (Qc_of_Z 0 / Qc_of_Z 10)%Qc = 0%Qc.
Proof. by apply Qc_is_canon. Qed.

Lemma zero_is_not_one_half : Fin 0 ≠ Fin one_half.
Proof. intros [=]. Qed.

(** C5, as stated, fails: under the public-feed vocabulary the labels of
    the mapping ([StrikeSwinging], [StrikeCalled]) are not putaway labels
    ([swinging_strike], [swinging_strike_blocked], [called_strike]), so the
    result is 0/10 and not 5/10. *)
Lemma parse_putaway_fastball_public_feed_not_half :
  ¬ (parse_putaway "Fastball" (fastball_counts PyInt) true = Ok (Fin one_half))
  ∧ ¬ (parse_putaway "Fastball" (fastball_counts NpInt64) true
       = Ok (Fin one_half)).
Proof.
  split; intros H.
  - assert (E : parse_putaway "Fastball" (fastball_counts PyInt) true
                = Ok (Fin (Qc_of_Z 0 / Qc_of_Z 10))) by (by vm_compute).
    rewrite E, zero_tenths in H. by injection H.
  - assert (E : parse_putaway "Fastball" (fastball_counts NpInt64) true
                = Ok (Fin (Qc_of_Z 0 / Qc_of_Z 10))) by (by vm_compute).
    rewrite E, zero_tenths in H. by injection H.
Qed.

(** C5, amended. For the counts
    [{"Fastball": {"StrikeSwinging": 3, "StrikeCalled": 2, "BallCalled": 5}}],
    [parse_putaway] for ["Fastball"] returns 5/10 = 0.5 under the
    proprietary-feed vocabulary ([statcast=False], the default), and
    0/10 = 0 under the public-feed one; this holds for counts that are
    numpy scalars and for counts that are Python ints. *)
Theorem parse_putaway_fastball :
  (parse_putaway "Fastball" (fastball_counts NpInt64) false = Ok (Fin one_half)
   ∧ parse_putaway "Fastball" (fastball_counts NpInt64) true = Ok (Fin 0))
  ∧ (parse_putaway "Fastball" (fastball_counts PyInt) false = Ok (Fin one_half)
     ∧ parse_putaway "Fastball" (fastball_counts PyInt) true = Ok (Fin 0)).
Proof.
  rewrite <- five_tenths, <- zero_tenths. repeat split; by vm_compute.
Qed.

(** ** parse_woba, parse_woba_denom *)

(** C4. Both lookups resolve the outcome of an event the same way: the play
    result when it is defined, else the strikeout/walk label when that is
    defined, and they return what the table holds under that key (a missing
    key is a [KeyError]); an event with neither has weight not-a-number and
    denominator the integer 0. *)
Theorem parse_woba_lookup
    (row : trackman_row) (weights denoms : gmap string pyval) :
  (play_result row ≠ "Undefined" →
     parse_woba row weights = getitem weights (play_result row)
     ∧ parse_woba_denom row denoms = getitem denoms (play_result row))
  ∧ (play_result row = "Undefined" → k_or_bb row ≠ "Undefined" →
     parse_woba row weights = getitem weights (k_or_bb row)
     ∧ parse_woba_denom row denoms = getitem denoms (k_or_bb row))
  ∧ (play_result row = "Undefined" → k_or_bb row = "Undefined" →
     parse_woba row weights = Ok (VFloat NaN)
     ∧ parse_woba_denom row denoms = Ok (VInt (PyInt 0))
     ∧ VInt (PyInt 0) ≠ VFloat NaN).
Proof.
  unfold parse_woba, parse_woba_denom.
  destruct (String.eqb_spec (play_result row) "Undefined") as [Hp | Hp];
    destruct (String.eqb_spec (k_or_bb row) "Undefined") as [Hk | Hk];
    simpl; repeat split; intros; congruence.
Qed.

Lemma parse_woba_lookup_witness :
  (parse_woba (event_row "Single" "Undefined") woba_weights
     = Ok (VFloat (Fin (tenths 9)))
   ∧ parse_woba_denom (event_row "Single" "Undefined") woba_denoms
     = Ok (VInt (PyInt 1)))
  ∧ (parse_woba (event_row "Undefined" "Walk") woba_weights
       = Ok (VFloat (Fin (tenths 7)))
     ∧ parse_woba_denom (event_row "Undefined" "Walk") woba_denoms
       = Ok (VInt (PyInt 1)))
  ∧ (parse_woba (event_row "Undefined" "Undefined") woba_weights
       = Ok (VFloat NaN)
     ∧ parse_woba_denom (event_row "Undefined" "Undefined") woba_denoms
       = Ok (VInt (PyInt 0))).
Proof.
  split; [| split].
  - apply (parse_woba_lookup (event_row "Single" "Undefined")
             woba_weights woba_denoms).
    discriminate.
  - apply (parse_woba_lookup (event_row "Undefined" "Walk")
             woba_weights woba_denoms); [reflexivity | discriminate].
  - pose proof (parse_woba_lookup (event_row "Undefined" "Undefined")
                  woba_weights woba_denoms) as (_ & _ & H).
    destruct (H eq_refl eq_refl) as (Hw & Hd & _). exact (conj Hw Hd).
Defined.

(** ** parse_whiff, parse_whiff_statcast against the specification *)

Lemma wrap64_id (z : Z) : - 2 ^ 63 <= z < 2 ^ 63 → wrap64 z = z.
Proof.
  intros Hz. unfold wrap64.
  rewrite Z.mod_small; lia.
Qed.

Lemma int_add_val (a b : pyint) :
  - 2 ^ 63 <= int_val a + int_val b < 2 ^ 63 →
  int_val (int_add a b) = int_val a + int_val b.
Proof.
  intros Hr. destruct a, b; simpl in *; try reflexivity; by apply wrap64_id.
Qed.

Lemma add_count_val (swings : pyint) (c : option pyint) :
  - 2 ^ 63 <= int_val swings + from_option int_val 0 c < 2 ^ 63 →
  int_val (add_count swings c) = int_val swings + from_option int_val 0 c.
Proof.
  destruct c as [c |]; simpl; [apply int_add_val | lia].
Qed.

Lemma Qc_of_Z_nonzero (z : Z) : z ≠ 0 → Qc_of_Z z ≠ 0%Qc.
Proof. intros Hz H. apply Hz, Z2Qc_inj. by rewrite Z2Qc_inj_0. Qed.

Lemma int_truediv_nonzero (a b : pyint) :
  int_val b ≠ 0 →
  int_truediv a b = Ok (Fin (Qc_of_Z (int_val a) / Qc_of_Z (int_val b))).
Proof.
  intros Hb.
  assert (Hnp : np_truediv (int_to_float a) (int_to_float b)
                = Fin (Qc_of_Z (int_val a) / Qc_of_Z (int_val b))).
  { unfold np_truediv, int_to_float.
    rewrite bool_decide_eq_false_2; [reflexivity |].
    by apply Qc_of_Z_nonzero. }
  destruct a, b; simpl in *; rewrite ?Hnp; try reflexivity.
  by apply py_truediv_ok.
Qed.

(** [parse_whiff] on a pitch type the mapping has, with the membership
    tests and lookups resolved. *)
Lemma parse_whiff_present row_name calls_by_pitch calls :
  calls_by_pitch !! row_name = Some calls →
  parse_whiff row_name calls_by_pitch
  = let whiffs := default (PyInt 0) (calls !! "StrikeSwinging") in
    let swings :=
      add_count (add_count (add_count (PyInt 0) (calls !! "StrikeSwinging"))
                   (calls !! "FoulBall")) (calls !! "InPlay") in
    if 0 <? int_val swings then int_truediv whiffs swings else Ok NaN.
Proof.
  intros Hcalls. unfold parse_whiff.
  destruct (contains_Some _ _ _ Hcalls) as [-> ->]. simpl.
  destruct (calls !! "StrikeSwinging") as [c1 |] eqn:H1;
    [destruct (contains_Some _ _ _ H1) as [-> ->]
    | rewrite (contains_None _ _ H1)];
  (destruct (calls !! "FoulBall") as [c2 |] eqn:H2;
    [destruct (contains_Some _ _ _ H2) as [-> ->]
    | rewrite (contains_None _ _ H2)]);
  (destruct (calls !! "InPlay") as [c3 |] eqn:H3;
    [destruct (contains_Some _ _ _ H3) as [-> ->]
    | rewrite (contains_None _ _ H3)]);
  reflexivity.
Qed.

Lemma len_filter_cons {A} (f : A → bool) (x : A) (l : list A) :
  len (List.filter f (x :: l)) = indicator (f x) + len (List.filter f l).
Proof. unfold len. simpl. destruct (f x); simpl; lia. Qed.

Lemma sum_counts_ext (f g : string → Z) (labels : list string) :
  (∀ l, f l = g l) → sum_counts f labels = sum_counts g labels.
Proof.
  intros Hfg. induction labels as [| a labels IH]; simpl; [reflexivity |].
  by rewrite Hfg, IH.
Qed.

Lemma sum_counts_plus (f g : string → Z) (labels : list string) :
  sum_counts (fun l => f l + g l) labels
  = sum_counts f labels + sum_counts g labels.
Proof.
  induction labels as [| a labels IH]; simpl; [reflexivity |].
  rewrite IH. lia.
Qed.

Lemma sum_counts_zero (labels : list string) :
  sum_counts (fun _ => 0) labels = 0.
Proof. induction labels as [| a labels IH]; simpl; [reflexivity | by rewrite IH]. Qed.

Lemma isin_true_iff (x : string) (values : list string) :
  isin x values = true ↔ x ∈ values.
Proof.
  unfold isin. rewrite existsb_exists, list_elem_of_In. split.
  - intros (y & Hy & Heq). by apply String.eqb_eq in Heq as ->.
  - intros Hx. exists x. split; [done | apply String.eqb_refl].
Qed.

(** A row is counted once under the labels of a duplicate-free list:
    under its own description, if that is on the list. *)
Lemma sum_counts_indicator (b : bool) (x : string) (labels : list string) :
  NoDup labels →
  sum_counts (fun l => indicator (b && String.eqb x l)) labels
  = indicator (b && isin x labels).
Proof.
  induction 1 as [| a labels Ha _ IH]; simpl.
  - by rewrite andb_false_r.
  - rewrite IH. destruct (String.eqb_spec x a) as [-> | Hne]; simpl.
    + assert (isin a labels = false) as ->.
      { apply not_true_is_false. by rewrite isin_true_iff. }
      rewrite andb_true_r, andb_false_r. simpl. lia.
    + by rewrite andb_false_r.
Qed.

Lemma statcast_count_cons (r : statcast_row) (rows : list statcast_row)
    (pitch l : string) :
  statcast_count (r :: rows) pitch l
  = indicator (String.eqb (pitch_type r) pitch && String.eqb (description r) l)
    + statcast_count rows pitch l.
Proof.
  unfold statcast_count.
  exact (len_filter_cons
           (fun r => String.eqb (pitch_type r) pitch
                     && String.eqb (description r) l) r rows).
Qed.

Lemma statcast_count_isin (all_stats : list statcast_row) (pitch : string)
    (labels : list string) :
  NoDup labels →
  len (List.filter (fun r => isin (description r) labels)
         (List.filter (fun r => String.eqb (pitch_type r) pitch) all_stats))
  = sum_counts (statcast_count all_stats pitch) labels.
Proof.
  intros Hnd. induction all_stats as [| r rows IH].
  - simpl. by rewrite (sum_counts_ext _ (fun _ => 0)), sum_counts_zero.
  - rewrite (sum_counts_ext _
      (fun l => indicator (String.eqb (pitch_type r) pitch
                           && String.eqb (description r) l)
                + statcast_count rows pitch l))
      by (intros l; apply statcast_count_cons).
    rewrite sum_counts_plus, sum_counts_indicator, <- IH by done.
    simpl. destruct (String.eqb (pitch_type r) pitch); simpl; [| lia].
    exact (len_filter_cons (fun r => isin (description r) labels) r _).
Qed.

Lemma NoDup_swing_descriptions : NoDup swing_descriptions.
Proof. apply (bool_decide_unpack _). by vm_compute. Qed.

Lemma NoDup_whiff_descriptions : NoDup whiff_descriptions.
Proof. apply (bool_decide_unpack _). by vm_compute. Qed.

(** C7. Both whiff aggregators compute the whiff rate of the
    specification for their feed: whiffs are the swinging variants, swings
    the swinging variants, the fouls and the balls in play, the result is
    whiffs over swings, and not-a-number when the swing count is zero. For
    the outcome-count mapping this is for counts that are counts: none
    negative, and a swing total within the range of [int64]. *)
Theorem whiff_aggregators_meet_spec :
  (∀ (row_name : string) (calls_by_pitch : call_counts),
     Forall (fun l => 0 <= trackman_count calls_by_pitch row_name l)
       (swing_labels trackman_vocabulary) →
     sum_counts (trackman_count calls_by_pitch row_name)
       (swing_labels trackman_vocabulary) < 2 ^ 63 →
     parse_whiff row_name calls_by_pitch
     = Ok (whiff_rate_spec trackman_vocabulary
             (trackman_count calls_by_pitch row_name)))
  ∧ (∀ (row_name : string) (all_stats : list statcast_row),
       parse_whiff_statcast row_name all_stats
       = Ok (whiff_rate_spec statcast_vocabulary
               (statcast_count all_stats row_name))).
Proof.
  split.
  - intros row_name calls_by_pitch Hnonneg Hfit.
    unfold whiff_rate_spec, swing_labels in *. simpl in *.
    unfold trackman_count in *.
    destruct (calls_by_pitch !! row_name) as [calls |] eqn:Hcalls.
    + rewrite (parse_whiff_present _ _ _ Hcalls). simpl.
      rewrite !Forall_cons in Hnonneg. destruct Hnonneg as (Hs & Hf & Hi & _).
      set (o1 := calls !! "StrikeSwinging") in *.
      set (o2 := calls !! "FoulBall") in *.
      set (o3 := calls !! "InPlay") in *.
      assert (H1 : int_val (add_count (PyInt 0) o1) = from_option int_val 0 o1)
        by (rewrite add_count_val; simpl; lia).
      assert (H2 : int_val (add_count (add_count (PyInt 0) o1) o2)
                   = from_option int_val 0 o1 + from_option int_val 0 o2)
        by (rewrite add_count_val; rewrite H1; lia).
      assert (H3 : int_val (add_count (add_count (add_count (PyInt 0) o1) o2) o3)
                   = from_option int_val 0 o1
                     + (from_option int_val 0 o2
                        + (from_option int_val 0 o3 + 0)))
        by (rewrite add_count_val; rewrite H2; lia).
      set (swings := add_count _ o3) in *.
      rewrite <- H3.
      assert (Hw : int_val (default (PyInt 0) o1)
                   = from_option int_val 0 o1 + 0)
        by (destruct o1; simpl; lia).
      rewrite <- Hw.
      destruct (Z.ltb_spec 0 (int_val swings)), (Z.eqb_spec (int_val swings) 0);
        try lia; [| reflexivity].
      by apply int_truediv_nonzero.
    + unfold parse_whiff. by rewrite (contains_None _ _ Hcalls).
  - intros row_name all_stats.
    unfold parse_whiff_statcast, whiff_rate_spec.
    rewrite (statcast_count_isin _ _ _ NoDup_whiff_descriptions).
    rewrite (statcast_count_isin _ _ _ NoDup_swing_descriptions).
    set (count := statcast_count all_stats row_name).
    assert (Hsw : sum_counts count swing_descriptions
                  = sum_counts count (swing_labels statcast_vocabulary))
      by (simpl; lia).
    rewrite <- Hsw. change (swinging statcast_vocabulary) with whiff_descriptions.
    destruct (Z.eqb_spec (sum_counts count swing_descriptions) 0) as [| Hne];
      [reflexivity |].
    by apply py_truediv_ok.
Qed.

Lemma whiff_aggregators_meet_spec_witness :
  parse_whiff "Fastball" swing_counts
  = Ok (whiff_rate_spec trackman_vocabulary
          (trackman_count swing_counts "Fastball")).
Proof.
  apply whiff_aggregators_meet_spec; [repeat constructor |]; by vm_compute.
Defined.

Example parse_whiff_swing_counts :
  parse_whiff "Fastball" swing_counts = Ok (Fin (Qc_of_Z 3 / Qc_of_Z 12)).
Proof. by vm_compute. Qed.

(** ** whiff_by_height *)

Lemma res_bind {A B} (m : report A) (k : A → report B) :
  res (m ≫= k) = match res m with
                  | Ok a => res (k a)
                  | Raise e => Raise e
                  end.
Proof. unfold mbind, report_bind. by destruct (res m). Qed.

Lemma out_bind {A B} (m : report A) (k : A → report B) :
  out (m ≫= k) = match res m with
                  | Ok a => (out m ++ out (k a))%list
                  | Raise e => out m
                  end.
Proof. unfold mbind, report_bind. by destruct (res m). Qed.

Lemma for_each_report_cons {A S} (x : A) (xs : list A)
    (body : S → A → report S) (s : S) :
  for_each_report (x :: xs) body s
  = body s x ≫= (fun s' => for_each_report xs body s').
Proof. reflexivity. Qed.

(** Whatever a loop emits, one round of its body emits. *)
Lemma for_each_report_out {A S} (xs : list A) (body : S → A → report S)
    (s : S) (o : output) :
  o ∈ out (for_each_report xs body s) →
  ∃ s' x, x ∈ xs ∧ o ∈ out (body s' x).
Proof.
  revert s. induction xs as [| x xs IH]; intros s; simpl.
  - intros Ho. by apply elem_of_nil in Ho.
  - rewrite out_bind. destruct (res (body s x)) as [s1 |].
    + rewrite elem_of_app. intros [Ho | Ho].
      * exists s, x. split; [left | done].
      * destruct (IH _ Ho) as (s' & y & Hy & Hout).
        exists s', y. split; [by right | done].
    + intros Ho. exists s, x. split; [left | done].
Qed.

(** One round of the loop over the height bands: it fails on an empty
    bucket (the clean rate divides by the bucket size), and records the
    bucket size otherwise. *)
Lemma whiff_by_height_band_res df pitch freqs height :
  res (whiff_by_height_band df pitch freqs height)
  = if bucket_count df pitch height =? 0 then Raise ZeroDivisionError
    else Ok (dict_set freqs height (bucket_count df pitch height)).
Proof.
  unfold whiff_by_height_band, bucket_count.
  set (df_pitch := List.filter (in_bucket pitch height) df).
  rewrite !res_bind. simpl.
  set (swings := len (List.filter _ df_pitch)).
  assert (Hw : ∃ w, (if 0 <? swings
                     then py_truediv
                            (len (List.filter
                                    (fun r => String.eqb (pitch_call r) "StrikeSwinging")
                                    df_pitch)) swings
                     else Ok NaN) = Ok w).
  { destruct (Z.ltb_spec 0 swings); [| by eexists].
    rewrite py_truediv_ok by lia. by eexists. }
  destruct Hw as [w ->]. rewrite res_bind. simpl.
  unfold py_truediv. by destruct (len df_pitch =? 0).
Qed.

Lemma whiff_by_height_band_out df pitch freqs height :
  Forall (fun o => is_freqs o = false)
    (out (whiff_by_height_band df pitch freqs height)).
Proof.
  unfold whiff_by_height_band.
  set (df_pitch := List.filter (in_bucket pitch height) df).
  rewrite out_bind. simpl. rewrite out_bind. simpl.
  destruct (if 0 <? _ then _ else _) as [w |]; [| by repeat constructor].
  rewrite out_bind. simpl.
  destruct (py_truediv _ (len df_pitch)) as [c |]; by repeat constructor.
Qed.

Lemma dict_set_positive freqs height n :
  positive_sizes freqs → 0 < n → positive_sizes (dict_set freqs height n).
Proof.
  unfold positive_sizes. intros Hpos Hn.
  induction Hpos as [| [k v] rest Hv Hrest IH]; simpl.
  - by repeat constructor.
  - destruct (decide (k = height)); by constructor.
Qed.

Lemma dict_set_nonempty {V} (freqs : list (band * V)) height v :
  dict_set freqs height v ≠ [].
Proof. destruct freqs as [| [k v'] rest]; simpl; [| destruct (decide _)]; done. Qed.

Lemma bands_loop_positive df pitch heights freqs freqs' :
  res (for_each_report heights (whiff_by_height_band df pitch) freqs) = Ok freqs' →
  positive_sizes freqs →
  positive_sizes freqs' ∧ (heights ≠ [] ∨ freqs ≠ [] → freqs' ≠ []).
Proof.
  revert freqs. induction heights as [| height heights IH]; intros freqs.
  - simpl. intros [= <-] Hpos. split; [done |]. by intros [? | ?].
  - rewrite for_each_report_cons, res_bind, whiff_by_height_band_res.
    destruct (Z.eqb_spec (bucket_count df pitch height) 0) as [| Hne];
      [discriminate |].
    intros Hloop Hpos.
    assert (0 < bucket_count df pitch height)
      by (pose proof (len_nonneg (List.filter (in_bucket pitch height) df));
          unfold bucket_count in *; lia).
    destruct (IH _ Hloop) as [Hpos' Hne']; [by apply dict_set_positive |].
    split; [done |]. intros _. apply Hne'. right. apply dict_set_nonempty.
Qed.

Lemma fold_left_add_positive (sizes : list Z) (acc : Z) :
  Forall (fun n => 0 < n) sizes → acc <= fold_left Z.add sizes acc
  ∧ (sizes ≠ [] → acc < fold_left Z.add sizes acc).
Proof.
  intros Hpos. revert acc.
  induction Hpos as [| n sizes Hn _ IH]; intros acc; simpl.
  - split; [lia | done].
  - destruct (IH (acc + n)) as [Hle _]. split; [lia |]. intros _. lia.
Qed.

Lemma sum_values_positive freqs :
  positive_sizes freqs → freqs ≠ [] → 0 < sum_values freqs.
Proof.
  intros Hpos Hne. unfold sum_values.
  apply fold_left_add_positive.
  - unfold positive_sizes in Hpos. by apply Forall_fmap.
  - by destruct freqs.
Qed.

Lemma normalize_values freqs total normalized :
  normalize freqs total = Ok normalized →
  total ≠ 0 →
  normalized.*2 = (fun n => Fin (Qc_of_Z n / Qc_of_Z total)) <$> freqs.*2.
Proof.
  intros Hnorm Htotal. revert normalized Hnorm.
  induction freqs as [| [height n] rest IH]; intros normalized; simpl.
  - by intros [= <-].
  - rewrite py_truediv_ok by done. simpl.
    destruct (normalize rest total) as [rest' |]; [| discriminate].
    simpl. intros [= <-]. simpl. f_equal. by apply IH.
Qed.

(** Sizes divided by a common total add up to their sum divided by it. *)
Lemma fold_left_shares (sizes : list Z) (total acc : Z) :
  fold_left fl_add ((fun n => Fin (Qc_of_Z n / Qc_of_Z total)) <$> sizes)
    (Fin (Qc_of_Z acc / Qc_of_Z total))
  = Fin (Qc_of_Z (fold_left Z.add sizes acc) / Qc_of_Z total).
Proof.
  revert acc. induction sizes as [| n sizes IH]; intros acc; simpl; [done |].
  rewrite <- IH. do 2 f_equal.
  unfold Qcdiv. by rewrite Z2Qc_inj_add, Qcmult_plus_distr_l.
Qed.

Lemma shares_sum_to_one (sizes : list Z) :
  fold_left Z.add sizes 0 ≠ 0 →
  fold_left fl_add
    ((fun n => Fin (Qc_of_Z n / Qc_of_Z (fold_left Z.add sizes 0))) <$> sizes)
    (Fin 0)
  = Fin 1.
Proof.
  intros Hne. set (total := fold_left Z.add sizes 0) in *.
  assert (H0 : 0%Qc = (Qc_of_Z 0 / Qc_of_Z total)%Qc)
    by (unfold Qcdiv; by rewrite Z2Qc_inj_0, Qcmult_0_l).
  rewrite H0, fold_left_shares. fold total. f_equal.
  unfold Qcdiv. apply Qcmult_inv_r. by apply Qc_of_Z_nonzero.
Qed.

Lemma total_bucket_count_nil_inv df pitch heights :
  0 < total_bucket_count df pitch heights → heights ≠ [].
Proof. destruct heights; simpl; [lia | done]. Qed.

(** What the report prints for one pitch type once its bands are done. *)
Lemma whiff_by_height_pitch_freqs df heights pitch p freqs :
  PrintFreqs p freqs ∈ out (whiff_by_height_pitch df heights tt pitch) →
  p = pitch
  ∧ ∃ sizes,
      res (for_each_report heights (whiff_by_height_band df pitch) []) = Ok sizes
      ∧ normalize sizes (sum_values sizes) = Ok freqs.
Proof.
  unfold whiff_by_height_pitch. rewrite out_bind.
  assert (Hbands : PrintFreqs p freqs
                   ∉ out (for_each_report heights (whiff_by_height_band df pitch) [])).
  { intros Hin. apply for_each_report_out in Hin as (s' & h & _ & Hin).
    pose proof (whiff_by_height_band_out df pitch s' h) as Hall.
    rewrite Forall_forall in Hall. by apply Hall in Hin. }
  destruct (res (for_each_report heights _ [])) as [sizes |]; [| done].
  rewrite elem_of_app. intros [Hin | Hin]; [done |].
  rewrite out_bind in Hin. simpl in Hin.
  destruct (normalize sizes (sum_values sizes)) as [normalized |] eqn:Hnorm;
    simpl in Hin; [| by apply elem_of_nil in Hin].
  apply list_elem_of_singleton in Hin. injection Hin as -> ->.
  split; [done |]. by exists sizes.
Qed.

(** What the report does print: the exact values of the frequencies of a
    pitch type whose buckets, over the supplied height bands, are not all
    empty add up to 1. (In binary64 each quotient and each partial sum is
    the rounding of the exact one.) *)
Theorem whiff_by_height_frequencies_sum_to_one
    (pitches : list string) (df : list trackman_row) (heights : list band)
    (putaway : bool) (pitch : string) (freqs : list (band * pyfloat)) :
  PrintFreqs pitch freqs ∈ out (whiff_by_height pitches df heights putaway) →
  0 < total_bucket_count df pitch heights →
  fold_left fl_add freqs.*2 (Fin 0) = Fin 1.
Proof.
  intros Hin Htotal. unfold whiff_by_height in Hin.
  apply for_each_report_out in Hin as ([] & pitch' & _ & Hin).
  apply whiff_by_height_pitch_freqs in Hin as (-> & sizes & Hloop & Hnorm).
  apply bands_loop_positive in Hloop as [Hpos Hne]; [| constructor].
  apply total_bucket_count_nil_inv in Htotal.
  assert (Hsum : 0 < sum_values sizes)
    by (apply sum_values_positive; [done | apply Hne; by left]).
  rewrite (normalize_values _ _ _ Hnorm) by lia.
  apply shares_sum_to_one. unfold sum_values in Hsum. lia.
Qed.

Lemma whiff_by_height_frequencies_sum_to_one_witness :
  fold_left fl_add fastball_shares.*2 (Fin 0) = Fin 1.
Proof.
  apply (whiff_by_height_frequencies_sum_to_one
           ["Fastball"] three_fastballs [low_band; high_band] false
           "Fastball" fastball_shares).
  - apply list_elem_of_In. vm_compute.
    repeat (first [left; reflexivity | right]).
  - by vm_compute.
Defined.

(** An empty bucket stops the report before any frequency is printed. *)
Example whiff_by_height_empty_bucket :
  res (whiff_by_height ["Fastball"] three_fastballs
         [low_band; (Qc_of_Z 4, Qc_of_Z 5)] false)
  = Raise ZeroDivisionError.
Proof. by vm_compute. Qed.

(** * Further properties of the code *)

(** ** sort_values, and what percentile computes *)

Lemma sort_leb_total (x y : pyfloat) :
  sort_leb x y = false → sort_leb y x = true.
Proof.
  destruct x as [| | | a], y as [| | | b]; simpl; try done.
  rewrite bool_decide_eq_false, bool_decide_eq_true.
  intros Hab. by apply Qclt_le_weak, Qclt_nge.
Qed.

Lemma sort_leb_trans (x y z : pyfloat) :
  sort_leb x y = true → sort_leb y z = true → sort_leb x z = true.
Proof.
  destruct x as [| | | a], y as [| | | b], z as [| | | c]; simpl; try done.
  rewrite !bool_decide_eq_true. apply Qcle_trans.
Qed.

(** What the value exceeds, it exceeds everything sorted before. *)
Lemma fl_gtb_sort_leb (val x y : pyfloat) :
  sort_leb x y = true → fl_gtb val y = true → fl_gtb val x = true.
Proof.
  destruct val as [| | | v], x as [| | | a], y as [| | | b]; simpl; try done.
  rewrite !bool_decide_eq_true. intros Hab Hbv.
  by apply Qcle_lt_trans with b.
Qed.

Lemma insert_row_perm stat r sorted :
  insert_row stat r sorted ≡ₚ r :: sorted.
Proof.
  induction sorted as [| s rest IH]; simpl; [done |].
  destruct (sort_leb _ _); [done |].
  rewrite IH. apply Permutation_swap.
Qed.

Lemma sort_values_perm stat table : sort_values stat table ≡ₚ table.
Proof.
  induction table as [| r table IH]; simpl; [done |].
  by rewrite insert_row_perm, IH.
Qed.

Lemma insert_row_sorted stat r sorted :
  StronglySorted (row_le stat) sorted →
  StronglySorted (row_le stat) (insert_row stat r sorted).
Proof.
  induction 1 as [| s rest Hrest IH Hs]; simpl.
  - by repeat constructor.
  - destruct (sort_leb (get_stat stat r) (get_stat stat s)) eqn:Hrs.
    + constructor; [by constructor |].
      constructor; [done |].
      eapply Forall_impl; [exact Hs |]. intros t Hst.
      by apply sort_leb_trans with (get_stat stat s).
    + constructor; [done |].
      apply insert_row_Forall; [| done].
      by apply sort_leb_total.
Qed.

Lemma sort_values_sorted stat table :
  StronglySorted (row_le stat) (sort_values stat table).
Proof.
  induction table as [| r table IH]; simpl; [constructor |].
  by apply insert_row_sorted.
Qed.

Lemma filter_length_perm {A} (f : A → bool) (l l' : list A) :
  l ≡ₚ l' → length (List.filter f l) = length (List.filter f l').
Proof.
  induction 1 as [| x l l' _ IH | x y l | l l' l'' _ IH1 _ IH2]; simpl.
  - reflexivity.
  - destruct (f x); simpl; congruence.
  - destruct (f x), (f y); reflexivity.
  - congruence.
Qed.

Lemma forallb_perm {A} (f : A → bool) (l l' : list A) :
  l ≡ₚ l' → forallb f l = forallb f l'.
Proof.
  induction 1 as [| x l l' _ IH | x y l | l l' l'' _ IH1 _ IH2]; simpl.
  - reflexivity.
  - by rewrite IH.
  - destruct (f x), (f y); reflexivity.
  - congruence.
Qed.

Lemma filter_none {A} (f : A → bool) (l : list A) :
  Forall (fun x => f x = false) l → List.filter f l = [].
Proof.
  induction 1 as [| x l Hx _ IH]; simpl; [reflexivity |]. by rewrite Hx.
Qed.

(** On sorted rows the scan stops after exactly the rows the value
    exceeds. *)
Lemma scan_rows_sorted val stat rest i :
  StronglySorted (row_le stat) rest →
  scan_rows val stat rest i
  = if forallb (fun r => fl_gtb val (get_stat stat r)) rest
    then Raise IndexError
    else Ok (i + length (List.filter (fun r => fl_gtb val (get_stat stat r)) rest))%nat.
Proof.
  intros Hsorted. revert i.
  induction Hsorted as [| r rest _ IH Hr]; intros i; simpl; [reflexivity |].
  destruct (fl_gtb val (get_stat stat r)) eqn:Hgt; simpl.
  - rewrite IH. destruct (forallb _ rest); [reflexivity |]. f_equal. lia.
  - assert (List.filter (fun r => fl_gtb val (get_stat stat r)) rest = []) as ->.
    { apply filter_none. eapply Forall_impl; [exact Hr |]. intros s Hs.
      apply not_true_is_false. intros Hgs.
      by rewrite (fl_gtb_sort_leb _ _ _ Hs Hgs) in Hgt. }
    simpl. f_equal. lia.
Qed.

(** The position at which the loop of [percentile] stops. *)
Lemma percentile_position val stats_by_pitcher stat :
  percentile_loop val stat (sort_values stat stats_by_pitcher) 0
  = if forallb (fun r => fl_gtb val (get_stat stat r)) stats_by_pitcher
    then Raise IndexError
    else Ok (length (List.filter (fun r => fl_gtb val (get_stat stat r))
                       stats_by_pitcher)).
Proof.
  rewrite percentile_loop_scan_rows, drop_0.
  rewrite scan_rows_sorted by apply sort_values_sorted.
  rewrite (forallb_perm _ _ _ (sort_values_perm stat stats_by_pitcher)).
  by rewrite (filter_length_perm _ _ _ (sort_values_perm stat stats_by_pitcher)).
Qed.

Lemma ratio_lt_one (a n : Z) :
  0 <= a < n → (0 <= Qc_of_Z a / Qc_of_Z n)%Qc ∧ (Qc_of_Z a / Qc_of_Z n < 1)%Qc.
Proof.
  intros [Ha Han].
  assert (Hn : (0 < Qc_of_Z n)%Qc)
    by (rewrite <- Z2Qc_inj_0; apply (proj1 (Z2Qc_inj_lt 0 n)); lia).
  unfold Qcdiv. split.
  - apply Qcmult_nonneg_nonneg.
    + rewrite <- Z2Qc_inj_0. by apply (proj1 (Z2Qc_inj_le 0 a)).
    + by apply Qclt_le_weak, Qcinv_pos.
  - apply (Qcmult_lt_mono_pos_r _ _ (Qc_of_Z n)); [done |].
    rewrite <- Qcmult_assoc, Qcmult_inv_l, Qcmult_1_r, Qcmult_1_l
      by (by apply not_eq_sym, Qclt_not_eq).
    by apply (proj1 (Z2Qc_inj_lt a n)).
Qed.

(** X1. [percentile] returns the share of the population that the value
    strictly exceeds (rows with a not-a-number statistic are never
    exceeded), unless the value exceeds every row, the empty population
    included: then it raises [IndexError]. *)
Theorem percentile_counts_below
    (val : pyfloat) (stats_by_pitcher : list rates) (stat : stat_name) :
  percentile val stats_by_pitcher stat
  = if forallb (fun r => fl_gtb val (get_stat stat r)) stats_by_pitcher
    then Raise IndexError
    else Ok (Fin (Qc_of_Z (count_below val stat stats_by_pitcher)
                  / Qc_of_Z (len stats_by_pitcher))).
Proof.
  unfold percentile. rewrite percentile_position.
  destruct (forallb _ stats_by_pitcher) eqn:Hall; [reflexivity |].
  simpl. unfold len. rewrite sort_values_length.
  rewrite py_truediv_ok; [reflexivity |].
  destruct stats_by_pitcher; [discriminate | simpl; lia].
Qed.

(** X2. A result of [percentile] is a fraction that is at least 0 and
    strictly below 1: the ranker never returns [1.0]. *)
Theorem percentile_below_one
    (val : pyfloat) (stats_by_pitcher : list rates) (stat : stat_name)
    (p : pyfloat) :
  percentile val stats_by_pitcher stat = Ok p →
  ∃ q : Qc, p = Fin q ∧ (0 <= q)%Qc ∧ (q < 1)%Qc.
Proof.
  unfold percentile. rewrite percentile_loop_scan_rows, drop_0.
  destruct (scan_rows val stat _ 0) as [i |] eqn:Hscan; [| discriminate].
  simpl. intros Hp. apply py_truediv_inv in Hp as [_ ->].
  apply scan_rows_bound in Hscan.
  eexists. split; [reflexivity |].
  apply ratio_lt_one. unfold len. lia.
Qed.

Lemma percentile_below_one_witness :
  ∃ q : Qc, Fin (Qc_of_Z 2 / Qc_of_Z 3) = Fin q ∧ (0 <= q)%Qc ∧ (q < 1)%Qc.
Proof.
  apply (percentile_below_one (Fin (Q2Qc (1 # 4))) population_123 Woba).
  by vm_compute.
Defined.

(** X3. The order of the rows of the population does not matter to
    [percentile]. *)
Theorem percentile_row_order
    (val : pyfloat) (stats_by_pitcher stats_by_pitcher' : list rates)
    (stat : stat_name) :
  stats_by_pitcher ≡ₚ stats_by_pitcher' →
  percentile val stats_by_pitcher stat = percentile val stats_by_pitcher' stat.
Proof.
  intros Hperm. unfold percentile. rewrite !percentile_position.
  rewrite (forallb_perm _ _ _ Hperm), (filter_length_perm _ _ _ Hperm).
  destruct (forallb _ stats_by_pitcher'); [reflexivity |].
  simpl. unfold len. rewrite !sort_values_length.
  by rewrite (Permutation_length Hperm).
Qed.

Lemma percentile_row_order_witness :
  percentile (Fin (Q2Qc (1 # 4))) population_123 Woba
  = percentile (Fin (Q2Qc (1 # 4)))
      [rated (tenths 1); rated (tenths 2); rated (tenths 3)] Woba.
Proof.
  apply (percentile_row_order (Fin (Q2Qc (1 # 4))) population_123
           [rated (tenths 1); rated (tenths 2); rated (tenths 3)] Woba).
  unfold population_123.
  apply (perm_trans (l' := [rated (tenths 1); rated (tenths 3); rated (tenths 2)]));
    [apply perm_swap | apply perm_skip, perm_swap].
Defined.

(** ** agg_statcast_pitchers: when it returns, and what *)

Lemma py_truediv_is_ok (a b : Z) : is_ok (py_truediv a b) ↔ b ≠ 0.
Proof.
  unfold py_truediv. destruct (Z.eqb_spec b 0); simpl; split; try done.
Qed.

Lemma py_truediv_raises (a b : Z) (e : exn) :
  py_truediv a b = Raise e → e = ZeroDivisionError.
Proof. unfold py_truediv. destruct (b =? 0); by intros [=]. Qed.

Lemma len_zero_iff {A} (l : list A) : len l = 0 ↔ l = [].
Proof. unfold len. destruct l; simpl; split; try done; lia. Qed.

(** X4. A pitcher who meets the threshold gets rates exactly when there is
    a two-strike pitch, a swing and an appearance; the only exception the
    aggregator raises is [ZeroDivisionError]. *)
Theorem agg_statcast_pitchers_returns
    (pitcher : list statcast_row) (min_batters_faced : Z) :
  min_batters_faced <= count_appearances pitcher →
  (is_ok (agg_statcast_pitchers pitcher min_batters_faced)
   ↔ two_strike_subset pitcher ≠ [] ∧ swing_rows pitcher ≠ []
     ∧ count_appearances pitcher ≠ 0)
  ∧ (∀ e, agg_statcast_pitchers pitcher min_batters_faced = Raise e →
          e = ZeroDivisionError).
Proof.
  intros Hmet. unfold agg_statcast_pitchers.
  destruct (Z.ltb_spec (count_appearances pitcher) min_batters_faced); [lia |].
  fold (two_strike_subset pitcher). fold (swing_rows pitcher).
  rewrite <- !len_zero_iff.
  set (n2 := len (two_strike_subset pitcher)).
  set (ns := len (swing_rows pitcher)).
  set (na := count_appearances pitcher).
  unfold py_truediv.
  destruct (Z.eqb_spec n2 0), (Z.eqb_spec ns 0), (Z.eqb_spec na 0); simpl;
    split; try (intros ? [= <-]); try done; tauto.
Qed.

Lemma agg_statcast_pitchers_returns_witness :
  (is_ok (agg_statcast_pitchers [one_strikeout] 1)
   ↔ two_strike_subset [one_strikeout] ≠ [] ∧ swing_rows [one_strikeout] ≠ []
     ∧ count_appearances [one_strikeout] ≠ 0)
  ∧ (∀ e, agg_statcast_pitchers [one_strikeout] 1 = Raise e →
          e = ZeroDivisionError).
Proof.
  apply (agg_statcast_pitchers_returns [one_strikeout] 1). by vm_compute.
Defined.

Lemma len_filter_impl {A} (f g : A → bool) (l : list A) :
  (∀ x, f x = true → g x = true) →
  len (List.filter f l) <= len (List.filter g l).
Proof.
  intros Hfg. unfold len. apply Nat2Z.inj_le.
  induction l as [| x l IH]; simpl; [lia |].
  destruct (f x) eqn:Hf.
  - rewrite (Hfg _ Hf). simpl. lia.
  - destruct (g x); simpl; lia.
Qed.

Lemma len_filter_le {A} (f : A → bool) (l : list A) :
  len (List.filter f l) <= len l.
Proof.
  unfold len. apply Nat2Z.inj_le.
  induction l as [| x l IH]; simpl; [lia |]. destruct (f x); simpl; lia.
Qed.

(** Two sorts of rows that exclude each other, within a third. *)
Lemma len_filter_disjoint {A} (f g h : A → bool) (l : list A) :
  (∀ x, f x = true → h x = true) →
  (∀ x, g x = true → h x = true) →
  (∀ x, f x = true → g x = false) →
  len (List.filter f l) + len (List.filter g l) <= len (List.filter h l).
Proof.
  intros Hfh Hgh Hfg. unfold len. rewrite <- Nat2Z.inj_add. apply Nat2Z.inj_le.
  induction l as [| x l IH]; simpl; [lia |].
  destruct (f x) eqn:Hf.
  - rewrite (Hfg _ Hf), (Hfh _ Hf). simpl. lia.
  - destruct (g x) eqn:Hg.
    + rewrite (Hgh _ Hg). simpl. lia.
    + destruct (h x); simpl; lia.
Qed.

Lemma ratio_unit_fraction (a n : Z) :
  0 <= a <= n → 0 < n → unit_fraction (Fin (Qc_of_Z a / Qc_of_Z n)).
Proof.
  intros [Ha Han] Hn. simpl.
  assert (Hn' : (0 < Qc_of_Z n)%Qc)
    by (rewrite <- Z2Qc_inj_0; by apply (proj1 (Z2Qc_inj_lt 0 n))).
  split.
  - unfold Qcdiv. apply Qcmult_nonneg_nonneg.
    + rewrite <- Z2Qc_inj_0. by apply (proj1 (Z2Qc_inj_le 0 a)).
    + by apply Qclt_le_weak, Qcinv_pos.
  - assert (H1 : (Qc_of_Z n / Qc_of_Z n = 1)%Qc)
      by (unfold Qcdiv; by apply Qcmult_inv_r, not_eq_sym, Qclt_not_eq).
    rewrite <- H1. by apply ratio_le_mono.
Qed.

Lemma isin_whiff_swing (x : string) :
  isin x whiff_descriptions = true → isin x swing_descriptions = true.
Proof.
  unfold isin at 1. simpl. rewrite orb_false_r.
  intros [->%String.eqb_eq | ->%String.eqb_eq]%orb_true_iff; reflexivity.
Qed.

Lemma strikeout_is_appearance (r : statcast_row) :
  String.eqb (events r) "strikeout" = true → is_appearance r = true.
Proof.
  intros H%String.eqb_eq. unfold is_appearance. rewrite H.
  apply orb_true_r.
Qed.

Lemma walk_is_appearance (r : statcast_row) :
  String.eqb (events r) "walk" = true → is_appearance r = true.
Proof.
  intros H%String.eqb_eq. unfold is_appearance. rewrite H.
  apply orb_true_r.
Qed.

(** X5. The rates of a pitcher who meets the threshold are fractions
    between 0 and 1 (putaway, whiff, strikeout and walk rate), and the
    strikeout and the walk rate together do not exceed 1. *)
Theorem agg_statcast_pitchers_rates_bounded
    (pitcher : list statcast_row) (min_batters_faced : Z) (r : rates) :
  min_batters_faced <= count_appearances pitcher →
  agg_statcast_pitchers pitcher min_batters_faced = Ok r →
  unit_fraction (putaway_rate r) ∧ unit_fraction (whiff_rate r)
  ∧ ∃ k b : Qc, k_rate r = Fin k ∧ bb_rate r = Fin b
                ∧ (0 <= k)%Qc ∧ (0 <= b)%Qc ∧ (k + b <= 1)%Qc.
Proof.
  intros Hmet. unfold agg_statcast_pitchers.
  destruct (Z.ltb_spec (count_appearances pitcher) min_batters_faced); [lia |].
  fold (two_strike_subset pitcher). fold (swing_rows pitcher).
  set (strikeouts :=
         len (List.filter (fun r => String.eqb (events r) "strikeout") pitcher)).
  set (walks :=
         len (List.filter (fun r => String.eqb (events r) "walk") pitcher)).
  destruct (py_truediv _ (len (two_strike_subset pitcher))) as [p |] eqn:Hp;
    [| discriminate].
  simpl.
  destruct (py_truediv _ (len (swing_rows pitcher))) as [w |] eqn:Hw;
    [| discriminate].
  simpl.
  destruct (py_truediv strikeouts _) as [k |] eqn:Hk; [| discriminate].
  simpl.
  destruct (py_truediv walks _) as [b |] eqn:Hb; [| discriminate].
  simpl. intros [= <-]. simpl.
  apply py_truediv_inv in Hp as [Hp0 ->], Hw as [Hw0 ->],
    Hk as [Hk0 ->], Hb as [_ ->].
  pose proof (len_nonneg (two_strike_subset pitcher)).
  pose proof (len_nonneg (swing_rows pitcher)).
  pose proof (len_nonneg (List.filter is_appearance pitcher)) as Happ.
  fold (count_appearances pitcher) in Happ.
  assert (Hsum : strikeouts + walks <= count_appearances pitcher).
  { apply len_filter_disjoint.
    - apply strikeout_is_appearance.
    - apply walk_is_appearance.
    - intros x Hx%String.eqb_eq. by rewrite Hx. }
  assert (0 <= strikeouts) by apply len_nonneg.
  assert (0 <= walks) by apply len_nonneg.
  split; [| split].
  - apply ratio_unit_fraction; [| lia].
    split; [apply len_nonneg | apply len_filter_le].
  - apply ratio_unit_fraction; [| lia].
    split; [apply len_nonneg |].
    apply len_filter_impl. intros x. apply isin_whiff_swing.
  - eexists _, _. split; [reflexivity |]. split; [reflexivity |].
    destruct (ratio_unit_fraction strikeouts (count_appearances pitcher))
      as [Hk1 _]; [lia | lia |].
    destruct (ratio_unit_fraction walks (count_appearances pitcher))
      as [Hb1 _]; [lia | lia |].
    split; [done |]. split; [done |].
    unfold Qcdiv. rewrite <- Qcmult_plus_distr_l, <- Z2Qc_inj_add.
    apply (ratio_unit_fraction (strikeouts + walks)); lia.
Qed.

Lemma agg_statcast_pitchers_rates_bounded_witness :
  ∃ r, agg_statcast_pitchers [one_strikeout; one_ball_in_play] 2 = Ok r
       ∧ unit_fraction (putaway_rate r) ∧ unit_fraction (whiff_rate r)
       ∧ ∃ k b : Qc, k_rate r = Fin k ∧ bb_rate r = Fin b
                     ∧ (0 <= k)%Qc ∧ (0 <= b)%Qc ∧ (k + b <= 1)%Qc.
Proof.
  eexists. split; [reflexivity |].
  apply (agg_statcast_pitchers_rates_bounded
           [one_strikeout; one_ball_in_play] 2); [by vm_compute | reflexivity].
Defined.

Lemma filter_perm {A} (f : A → bool) (l l' : list A) :
  l ≡ₚ l' → List.filter f l ≡ₚ List.filter f l'.
Proof.
  induction 1 as [| x l l' _ IH | x y l | l l' l'' _ IH1 _ IH2]; simpl.
  - done.
  - destruct (f x); by rewrite IH.
  - destruct (f x), (f y); try done. apply perm_swap.
  - by rewrite IH1.
Qed.

Lemma len_filter_perm {A} (f : A → bool) (l l' : list A) :
  l ≡ₚ l' → len (List.filter f l) = len (List.filter f l').
Proof. intros Hperm. unfold len. by rewrite (filter_length_perm f _ _ Hperm). Qed.

(** X6. The four count-based rates of the aggregator (putaway, whiff,
    strikeout and walk rate), and whether it raises, do not depend on the
    order of the rows of the table. *)
Theorem agg_statcast_pitchers_row_order
    (pitcher pitcher' : list statcast_row) (min_batters_faced : Z) :
  pitcher ≡ₚ pitcher' →
  result_map count_rates (agg_statcast_pitchers pitcher min_batters_faced)
  = result_map count_rates (agg_statcast_pitchers pitcher' min_batters_faced).
Proof.
  intros Hperm. unfold agg_statcast_pitchers, count_appearances.
  rewrite (len_filter_perm is_appearance _ _ Hperm).
  destruct (_ <? min_batters_faced); [reflexivity |].
  rewrite (len_filter_perm _ _ _ (filter_perm (fun r => strikes r =? 2) _ _ Hperm)).
  rewrite (len_filter_perm (fun r => strikes r =? 2) _ _ Hperm).
  rewrite (len_filter_perm
             (fun r => isin (description r) whiff_descriptions) _ _ Hperm).
  rewrite (len_filter_perm
             (fun r => isin (description r) swing_descriptions) _ _ Hperm).
  rewrite (len_filter_perm (fun r => String.eqb (events r) "strikeout") _ _ Hperm).
  rewrite (len_filter_perm (fun r => String.eqb (events r) "walk") _ _ Hperm).
  repeat (match goal with
          | |- context [py_truediv ?a ?b] => destruct (py_truediv a b); simpl
          end; try reflexivity).
Qed.

Lemma agg_statcast_pitchers_row_order_witness :
  result_map count_rates
    (agg_statcast_pitchers [one_strikeout; one_ball_in_play] 1)
  = result_map count_rates
      (agg_statcast_pitchers [one_ball_in_play; one_strikeout] 1).
Proof.
  apply (agg_statcast_pitchers_row_order
           [one_strikeout; one_ball_in_play] [one_ball_in_play; one_strikeout] 1).
  apply perm_swap.
Defined.

(** ** The whiff aggregators: totality, range, agreement *)

(** X7. [parse_whiff] never raises on counts of magnitude below 2^61 under
    the three swing labels, whatever their sign and whether they are Python
    ints or numpy scalars, and whatever else the mapping holds: an absent
    pitch type and absent labels get a float as well. (Within that range the
    sums and the quotient are within what [int64] and a float hold.) *)
Theorem parse_whiff_never_raises
    (row_name : string) (calls_by_pitch : call_counts) :
  Forall (fun l => - 2 ^ 61 < trackman_count calls_by_pitch row_name l < 2 ^ 61)
    (swing_labels trackman_vocabulary) →
  is_ok (parse_whiff row_name calls_by_pitch).
Proof.
  intros _.
  destruct (calls_by_pitch !! row_name) as [calls |] eqn:Hcalls.
  - rewrite (parse_whiff_present _ _ _ Hcalls). simpl.
    set (swings := add_count _ (calls !! "InPlay")).
    destruct (Z.ltb_spec 0 (int_val swings)); [| done].
    by rewrite int_truediv_nonzero by lia.
  - unfold parse_whiff. by rewrite (contains_None _ _ Hcalls).
Qed.

Lemma parse_whiff_never_raises_witness :
  is_ok (parse_whiff "Fastball" swing_counts)
  ∧ is_ok (parse_whiff "Fastball" (fastball_counts PyInt))
  ∧ is_ok (parse_whiff "Slider" swing_counts).
Proof.
  split; [| split].
  - apply (parse_whiff_never_raises "Fastball" swing_counts).
    repeat constructor; by vm_compute.
  - apply (parse_whiff_never_raises "Fastball" (fastball_counts PyInt)).
    repeat constructor; by vm_compute.
  - apply (parse_whiff_never_raises "Slider" swing_counts).
    repeat constructor; by vm_compute.
Defined.

Lemma filter_all {A} (f : A → bool) (l : list A) :
  Forall (fun x => f x = true) l → List.filter f l = l.
Proof.
  induction 1 as [| x l Hx _ IH]; simpl; [reflexivity |]. by rewrite Hx, IH.
Qed.

(** X8. [parse_whiff_statcast] never raises: it returns not-a-number when
    the pitch type has no swing in the table, and a fraction between 0 and 1
    when it has one. *)
Theorem parse_whiff_statcast_range
    (row_name : string) (all_stats : list statcast_row) :
  (pitch_swing_rows all_stats row_name = [] →
   parse_whiff_statcast row_name all_stats = Ok NaN)
  ∧ (pitch_swing_rows all_stats row_name ≠ [] →
     ∃ p, parse_whiff_statcast row_name all_stats = Ok p ∧ unit_fraction p).
Proof.
  unfold parse_whiff_statcast, pitch_swing_rows, swing_rows.
  set (rows := List.filter _ all_stats).
  rewrite <- len_zero_iff.
  pose proof (len_nonneg
    (List.filter (fun r => isin (description r) swing_descriptions) rows)) as Hs.
  set (swings := len (List.filter _ rows)) in *.
  split.
  - by intros ->.
  - intros Hne. destruct (Z.eqb_spec swings 0) as [| _]; [done |].
    rewrite py_truediv_ok by done. eexists. split; [reflexivity |].
    apply ratio_unit_fraction; [| lia].
    split; [apply len_nonneg |].
    apply len_filter_impl. intros x. apply isin_whiff_swing.
Qed.

Lemma parse_whiff_statcast_range_witness :
  parse_whiff_statcast "SL" [one_strikeout; one_called_strike] = Ok NaN
  ∧ ∃ p, parse_whiff_statcast "FF" [one_strikeout; one_called_strike] = Ok p
         ∧ unit_fraction p.
Proof.
  split.
  - apply (parse_whiff_statcast_range "SL" [one_strikeout; one_called_strike]).
    reflexivity.
  - apply (parse_whiff_statcast_range "FF" [one_strikeout; one_called_strike]).
    discriminate.
Defined.

(** X9. On the table of one pitch type, [parse_whiff_statcast] for that
    pitch type returns the whiff rate that [agg_statcast_pitchers] computes
    for the table, whenever the aggregator gets as far as computing rates
    and returns. *)
Theorem parse_whiff_statcast_agrees_with_agg
    (row_name : string) (all_stats : list statcast_row)
    (min_batters_faced : Z) (r : rates) :
  Forall (fun row => pitch_type row = row_name) all_stats →
  min_batters_faced <= count_appearances all_stats →
  agg_statcast_pitchers all_stats min_batters_faced = Ok r →
  parse_whiff_statcast row_name all_stats = Ok (whiff_rate r).
Proof.
  intros Hsame Hmet. unfold agg_statcast_pitchers, parse_whiff_statcast.
  rewrite (filter_all (fun r => String.eqb (pitch_type r) row_name))
    by (eapply Forall_impl; [exact Hsame |]; intros x ->; apply String.eqb_refl).
  destruct (Z.ltb_spec (count_appearances all_stats) min_batters_faced); [lia |].
  fold (two_strike_subset all_stats).
  set (strikeouts :=
         len (List.filter (fun r => String.eqb (events r) "strikeout") all_stats)).
  set (walks :=
         len (List.filter (fun r => String.eqb (events r) "walk") all_stats)).
  set (whiffs := len (List.filter _ all_stats)).
  set (swings := len (List.filter _ all_stats)).
  destruct (py_truediv _ (len (two_strike_subset all_stats))) as [p |];
    [| discriminate].
  simpl. destruct (py_truediv whiffs swings) as [w |] eqn:Hw; [| discriminate].
  simpl. destruct (py_truediv strikeouts _) as [k |]; [| discriminate].
  simpl. destruct (py_truediv walks _) as [b |]; [| discriminate].
  simpl. intros [= <-]. simpl.
  apply py_truediv_inv in Hw as [Hne ->].
  destruct (Z.eqb_spec swings 0); [done | reflexivity].
Qed.

Lemma parse_whiff_statcast_agrees_with_agg_witness :
  ∃ r, agg_statcast_pitchers [one_strikeout; one_ball_in_play] 2 = Ok r
       ∧ parse_whiff_statcast "FF" [one_strikeout; one_ball_in_play]
         = Ok (whiff_rate r).
Proof.
  eexists. split; [reflexivity |].
  apply (parse_whiff_statcast_agrees_with_agg
           "FF" [one_strikeout; one_ball_in_play] 2);
    [by repeat constructor | by vm_compute | reflexivity].
Defined.

(** ** The putaway aggregators *)

Lemma for_each_is_ok {A S} (xs : list A) (body : S → A → result S) (s : S) :
  (∀ s' x, x ∈ xs → is_ok (body s' x)) → is_ok (for_each xs body s).
Proof.
  revert s. induction xs as [| x xs IH]; intros s Hbody; simpl; [done |].
  pose proof (Hbody s x (list_elem_of_here _ _)) as Hx.
  destruct (body s x) as [s1 |]; [| done].
  simpl. apply IH. intros s' y Hy. apply Hbody. by right.
Qed.

Lemma for_each_cons {A S} (x : A) (xs : list A) (body : S → A → result S)
    (s : S) :
  for_each (x :: xs) body s = body s x ≫= (fun s' => for_each xs body s').
Proof. reflexivity. Qed.

(** The labels of a Series are labels it has a cell for. *)
Lemma index_lookup (calls : gmap string pyint) (outcome : string) :
  outcome ∈ index calls → ∃ c, calls !! outcome = Some c.
Proof.
  unfold index. intros ([k c] & -> & Hin)%list_elem_of_fmap.
  exists c. by apply elem_of_map_to_list.
Qed.

Lemma parse_putaway_outcome_found statcast calls total_k total outcome c :
  calls !! outcome = Some c →
  parse_putaway_outcome statcast calls (total_k, total) outcome
  = Ok (if is_putaway_call statcast outcome then int_add total_k c else total_k,
        int_add total c).
Proof.
  intros Hc. unfold parse_putaway_outcome, is_putaway_call, getitem.
  rewrite Hc. destruct statcast.
  - by destruct (isin outcome putaway_descriptions).
  - by destruct (String.eqb outcome "StrikeSwinging"
                 || String.eqb outcome "StrikeCalled").
Qed.

(** The two loop bodies do the same, on totals kept in opposite orders. *)
Lemma compute_putaway_row_swap calls total total_k row :
  compute_putaway_row calls (total, total_k) row
  = result_map swap_totals
      (parse_putaway_outcome false calls (total_k, total) row).
Proof.
  unfold compute_putaway_row, parse_putaway_outcome. simpl.
  destruct (String.eqb row "StrikeSwinging" || String.eqb row "StrikeCalled");
    destruct (getitem calls row); reflexivity.
Qed.

Lemma compute_putaway_rows_swap calls rows total total_k :
  for_each rows (compute_putaway_row calls) (total, total_k)
  = result_map swap_totals
      (for_each rows (parse_putaway_outcome false calls) (total_k, total)).
Proof.
  revert total total_k. induction rows as [| row rows IH]; intros total total_k;
    [reflexivity |].
  rewrite !for_each_cons, compute_putaway_row_swap.
  destruct (parse_putaway_outcome false calls (total_k, total) row)
    as [[k' t'] |]; [apply IH | reflexivity].
Qed.

Lemma parse_putaway_loop_is_ok statcast calls st :
  is_ok (for_each (index calls) (parse_putaway_outcome statcast calls) st).
Proof.
  apply for_each_is_ok. intros [k t] outcome [c Hc]%index_lookup.
  by rewrite (parse_putaway_outcome_found _ _ _ _ _ _ Hc).
Qed.

Lemma int_truediv_ok_or_zero_division (a b : pyint) :
  ok_or_zero_division (int_truediv a b).
Proof.
  destruct a, b; simpl; try done.
  unfold py_truediv. by destruct (_ =? 0).
Qed.

(** X10. On outcome counts held as numpy [int64] scalars, as the cells of
    a pandas Series are, the putaway aggregators raise nothing but
    [ZeroDivisionError]: the lookups inside their loops, by labels read off
    the index, cannot fail, the sums wrap, and the final division is the only
    place that raises. *)
Theorem putaway_aggregators_raise_only_zero_division :
  (∀ (df : list trackman_row) (calls_by_pitch : call_counts),
     int64_counts calls_by_pitch →
     ok_or_zero_division (compute_putaway df calls_by_pitch))
  ∧ (∀ (row_name : string) (calls_by_pitch : call_counts) (statcast : bool),
       int64_counts calls_by_pitch →
       ok_or_zero_division (parse_putaway row_name calls_by_pitch statcast)).
Proof.
  split.
  - intros df calls_by_pitch _. unfold compute_putaway.
    set (pitches := elements _).
    assert (Hloop : is_ok (for_each pitches
                             (compute_putaway_pitch calls_by_pitch)
                             (PyInt 0, PyInt 0))).
    { apply for_each_is_ok. intros [t k] pitch _. unfold compute_putaway_pitch.
      destruct (calls_by_pitch !! pitch) as [calls |] eqn:Hp.
      - destruct (contains_Some _ _ _ Hp) as [-> ->]. simpl.
        rewrite compute_putaway_rows_swap.
        pose proof (parse_putaway_loop_is_ok false calls (k, t)) as Hok.
        by destruct (for_each _ _ (k, t)).
      - by rewrite (contains_None _ _ Hp). }
    destruct (for_each pitches _ _) as [[t k] |]; [| done].
    simpl. apply int_truediv_ok_or_zero_division.
  - intros row_name calls_by_pitch statcast _. unfold parse_putaway.
    destruct (calls_by_pitch !! row_name) as [calls |] eqn:Hp.
    + destruct (contains_Some _ _ _ Hp) as [-> ->]. simpl.
      pose proof (parse_putaway_loop_is_ok statcast calls (PyInt 0, PyInt 0))
        as Hok.
      destruct (for_each _ _ _) as [[k t] |]; [| done].
      simpl. apply int_truediv_ok_or_zero_division.
    + by rewrite (contains_None _ _ Hp).
Qed.

Lemma int64_counts_fastball : int64_counts (fastball_counts NpInt64).
Proof.
  unfold int64_counts, fastball_counts.
  apply map_Forall_singleton.
  repeat (apply map_Forall_insert_2; [simpl; lia |]).
  apply map_Forall_empty.
Defined.

Lemma putaway_aggregators_raise_only_zero_division_witness :
  ok_or_zero_division
    (compute_putaway two_pitch_types (fastball_counts NpInt64))
  ∧ ok_or_zero_division
      (parse_putaway "Fastball" (fastball_counts NpInt64) true).
Proof.
  split.
  - apply putaway_aggregators_raise_only_zero_division.
    exact int64_counts_fastball.
  - apply putaway_aggregators_raise_only_zero_division.
    exact int64_counts_fastball.
Defined.

Lemma cells_sum_bounds (keep : string → bool) (cells : list (string * pyint)) :
  Forall (fun cell => 0 <= int_val cell.2) cells →
  0 <= cells_sum keep cells <= cells_sum (fun _ => true) cells.
Proof.
  induction 1 as [| [k c] cells Hc _ IH]; simpl in *; [lia |].
  destruct (keep k); lia.
Qed.

(** The loop of [parse_putaway] over cells with counts that are counts:
    the totals grow by the exact sums. *)
Lemma parse_putaway_loop_value statcast calls cells total_k total :
  Forall (fun cell => calls !! cell.1 = Some cell.2 ∧ 0 <= int_val cell.2) cells →
  0 <= int_val total_k <= int_val total →
  int_val total + cells_sum (fun _ => true) cells < 2 ^ 63 →
  ∃ total_k' total',
    for_each cells.*1 (parse_putaway_outcome statcast calls) (total_k, total)
    = Ok (total_k', total')
    ∧ int_val total_k'
      = int_val total_k + cells_sum (is_putaway_call statcast) cells
    ∧ int_val total' = int_val total + cells_sum (fun _ => true) cells.
Proof.
  intros Hcells. revert total_k total.
  induction Hcells as [| [k c] cells [Hk Hc] Hrest IH]; intros total_k total Hkt Hfit.
  - exists total_k, total. simpl. repeat split; lia.
  - simpl in Hk, Hc, Hfit. rewrite fmap_cons, for_each_cons. simpl fst.
    rewrite (parse_putaway_outcome_found _ _ _ _ _ _ Hk).
    assert (Hsum : 0 <= cells_sum (fun _ => true) cells).
    { eapply (cells_sum_bounds (fun _ => true)), Forall_impl; [exact Hrest |].
      by intros cell [_ ?]. }
    assert (Ht : int_val (int_add total c) = int_val total + int_val c)
      by (apply int_add_val; lia).
    assert (Hk' : int_val (int_add total_k c) = int_val total_k + int_val c)
      by (apply int_add_val; lia).
    destruct (IH (if is_putaway_call statcast k then int_add total_k c else total_k)
                 (int_add total c))
      as (total_k' & total' & Hloop & Hvk & Hvt).
    + destruct (is_putaway_call statcast k); lia.
    + lia.
    + exists total_k', total'. split; [exact Hloop |]. simpl.
      destruct (is_putaway_call statcast k); lia.
Qed.

Lemma series_cells (P : pyint → Prop) (calls : gmap string pyint) :
  map_Forall (fun _ c => P c) calls →
  Forall (fun cell => calls !! cell.1 = Some cell.2 ∧ P cell.2)
    (map_to_list calls).
Proof.
  intros Hall. apply Forall_forall. intros [k c] Hin%elem_of_map_to_list.
  split; [done |]. by apply (Hall k c).
Qed.

(** X11. For a pitch type whose counts are counts (none negative, a
    positive total within the range of [int64]), [parse_putaway] returns the
    total of the putaway outcomes of the feed over the total of all
    outcomes, a fraction between 0 and 1. *)
Theorem parse_putaway_value
    (row_name : string) (calls_by_pitch : call_counts) (statcast : bool)
    (calls : gmap string pyint) :
  calls_by_pitch !! row_name = Some calls →
  map_Forall (fun _ c => 0 <= int_val c) calls →
  0 < series_sum (fun _ => true) calls < 2 ^ 63 →
  ∃ p, parse_putaway row_name calls_by_pitch statcast = Ok p
       ∧ p = Fin (Qc_of_Z (series_sum (is_putaway_call statcast) calls)
                  / Qc_of_Z (series_sum (fun _ => true) calls))
       ∧ unit_fraction p.
Proof.
  intros Hcalls Hnonneg [Hpos Hfit]. unfold parse_putaway, series_sum in *.
  destruct (contains_Some _ _ _ Hcalls) as [-> ->]. simpl.
  pose proof (series_cells _ _ Hnonneg) as Hcells.
  destruct (parse_putaway_loop_value statcast calls (map_to_list calls)
              (PyInt 0) (PyInt 0) Hcells)
    as (total_k & total & Hloop & Hk & Ht); [simpl; lia | simpl; lia |].
  unfold index. rewrite Hloop. simpl in *.
  rewrite int_truediv_nonzero by lia. rewrite Hk, Ht.
  eexists. split; [reflexivity |]. split; [reflexivity |].
  apply ratio_unit_fraction; [| lia].
  apply cells_sum_bounds. eapply Forall_impl; [exact Hcells |].
  by intros cell [_ ?].
Qed.

Lemma parse_putaway_value_witness :
  ∃ p, parse_putaway "Fastball" swing_counts false = Ok p
       ∧ p = Fin (Qc_of_Z (series_sum (is_putaway_call false)
                             (default ∅ (swing_counts !! "Fastball")))
                  / Qc_of_Z (series_sum (fun _ => true)
                               (default ∅ (swing_counts !! "Fastball"))))
       ∧ unit_fraction p.
Proof.
  apply (parse_putaway_value "Fastball" swing_counts false
           (default ∅ (swing_counts !! "Fastball"))).
  - reflexivity.
  - apply map_Forall_to_list. vm_compute.
    repeat (constructor; [by vm_compute |]). constructor.
  - by vm_compute.
Defined.

Lemma single_label_set (p : string) (labels : list string) :
  labels ≠ [] → Forall (fun l => l = p) labels →
  (list_to_set labels : gset string) = {[ p ]}.
Proof.
  intros Hne Hall. induction Hall as [| l labels -> Hrest IH]; [done |].
  simpl. destruct labels as [| l' labels'].
  - simpl. apply (right_id_L ∅ (∪)).
  - rewrite IH by done. apply (idemp_L (∪)).
Qed.

(** X12. On a table whose rows all are of one pitch type, and that the
    outcome counts know, [compute_putaway] returns what [parse_putaway]
    returns for that pitch type under the proprietary-feed vocabulary;
    errors included. *)
Theorem compute_putaway_single_pitch
    (df : list trackman_row) (calls_by_pitch : call_counts) (pitch : string) :
  df ≠ [] →
  Forall (fun row => tagged_pitch_type row = pitch) df →
  is_Some (calls_by_pitch !! pitch) →
  compute_putaway df calls_by_pitch = parse_putaway pitch calls_by_pitch false.
Proof.
  intros Hne Hsame [calls Hcalls]. unfold compute_putaway, parse_putaway.
  rewrite (single_label_set pitch), elements_singleton.
  - rewrite for_each_cons. unfold compute_putaway_pitch.
    destruct (contains_Some _ _ _ Hcalls) as [-> ->]. simpl.
    rewrite compute_putaway_rows_swap.
    by destruct (for_each (index calls) _ _) as [[k t] |].
  - by destruct df.
  - by apply Forall_fmap.
Qed.

Lemma compute_putaway_single_pitch_witness :
  compute_putaway [pitch_at "Fastball" "BallCalled" 2;
                   pitch_at "Fastball" "StrikeCalled" 1]
    (fastball_counts NpInt64)
  = parse_putaway "Fastball" (fastball_counts NpInt64) false.
Proof.
  apply (compute_putaway_single_pitch
           [pitch_at "Fastball" "BallCalled" 2;
            pitch_at "Fastball" "StrikeCalled" 1]
           (fastball_counts NpInt64) "Fastball").
  - discriminate.
  - by repeat constructor.
  - by eexists.
Defined.






(** ** parse_prop *)

Lemma count_label_bounds (column : list string) (name : string) :
  0 <= count_label column name <= len column.
Proof. unfold count_label. split; [apply len_nonneg | apply len_filter_le]. Qed.

(** X14. [parse_prop] raises [KeyError] when the flag does not fit the
    table (the column it reads is not there), [ZeroDivisionError] on an
    empty table, and returns a fraction between 0 and 1 otherwise. *)
Theorem parse_prop_range (row_name : string) (df : frame) (statcast : bool) :
  (statcast ≠ frame_feed df →
   parse_prop row_name df statcast = Raise KeyError)
  ∧ (statcast = frame_feed df → frame_len df = 0 →
     parse_prop row_name df statcast = Raise ZeroDivisionError)
  ∧ (statcast = frame_feed df → frame_len df ≠ 0 →
     ∃ p, parse_prop row_name df statcast = Ok p ∧ unit_fraction p).
Proof.
  unfold parse_prop. split; [| split].
  - by destruct df, statcast.
  - intros -> Hlen. destruct df as [rows | rows]; simpl in *; by rewrite Hlen.
  - intros -> Hlen.
    assert (Hfrac : ∀ column, len column = frame_len df →
              ∃ p, py_truediv (count_label column row_name) (frame_len df) = Ok p
                   ∧ unit_fraction p).
    { intros column Hcol. rewrite py_truediv_ok by done.
      eexists. split; [reflexivity |].
      pose proof (count_label_bounds column row_name).
      pose proof (len_nonneg column).
      apply ratio_unit_fraction; lia. }
    destruct df as [rows | rows]; simpl in *; apply Hfrac;
      unfold len; by rewrite length_map.
Qed.

Lemma parse_prop_range_witness :
  parse_prop "Fastball" (Statcast [one_strikeout]) false = Raise KeyError
  ∧ parse_prop "Fastball" (Trackman []) false = Raise ZeroDivisionError
  ∧ ∃ p, parse_prop "Fastball" (Trackman three_fastballs) false = Ok p
         ∧ unit_fraction p.
Proof.
  split; [| split].
  - apply (parse_prop_range "Fastball" (Statcast [one_strikeout]) false).
    discriminate.
  - apply (parse_prop_range "Fastball" (Trackman []) false); reflexivity.
  - apply (parse_prop_range "Fastball" (Trackman three_fastballs) false);
      [reflexivity | discriminate].
Defined.







(** ** whiff_by_height: when it completes, and what it reports *)

Lemma bucket_count_nonneg df pitch height : 0 <= bucket_count df pitch height.
Proof. apply len_nonneg. Qed.

(** The loop over the height bands: it completes when no bucket is empty,
    with the dict of the bucket sizes. *)
Lemma bands_loop_res df pitch heights freqs :
  res (for_each_report heights (whiff_by_height_band df pitch) freqs)
  = if forallb (fun height => 0 <? bucket_count df pitch height) heights
    then Ok (fold_left
               (fun d height => dict_set d height (bucket_count df pitch height))
               heights freqs)
    else Raise ZeroDivisionError.
Proof.
  revert freqs. induction heights as [| height heights IH]; intros freqs;
    [reflexivity |].
  rewrite for_each_report_cons, res_bind, whiff_by_height_band_res.
  pose proof (bucket_count_nonneg df pitch height).
  cbn [forallb fold_left].
  destruct (Z.eqb_spec (bucket_count df pitch height) 0),
    (Z.ltb_spec 0 (bucket_count df pitch height)); try lia; [reflexivity |].
  apply IH.
Qed.

Lemma normalize_map (freqs : list (band * Z)) (total : Z) :
  total ≠ 0 →
  normalize freqs total
  = Ok ((fun kv => (kv.1, Fin (Qc_of_Z kv.2 / Qc_of_Z total))) <$> freqs).
Proof.
  intros Htotal. induction freqs as [| [height n] rest IH]; simpl; [reflexivity |].
  rewrite py_truediv_ok by done. simpl. by rewrite IH.
Qed.

Lemma whiff_by_height_pitch_res df heights pitch :
  res (whiff_by_height_pitch df heights tt pitch)
  = if forallb (fun height => 0 <? bucket_count df pitch height) heights
    then Ok tt else Raise ZeroDivisionError.
Proof.
  unfold whiff_by_height_pitch. rewrite res_bind.
  pose proof (bands_loop_positive df pitch heights []) as Hpos.
  rewrite bands_loop_res in *.
  destruct (forallb _ heights); [| reflexivity].
  destruct (Hpos _ eq_refl) as [Hsizes Hne]; [constructor |].
  set (sizes := fold_left _ heights []) in *.
  rewrite res_bind. simpl.
  destruct sizes as [| kv sizes'] eqn:Hs; [reflexivity |].
  rewrite normalize_map; [reflexivity |].
  pose proof (sum_values_positive (kv :: sizes') Hsizes ltac:(done)). lia.
Qed.

(** X16. The report completes exactly when none of the (pitch type, height
    band) buckets it is asked for is empty; an empty bucket makes it raise
    [ZeroDivisionError] (at the clean rate of that bucket), and nothing else
    is ever raised. *)
Theorem whiff_by_height_completes
    (pitches : list string) (df : list trackman_row) (heights : list band)
    (putaway : bool) :
  res (whiff_by_height pitches df heights putaway)
  = if forallb (fun pitch =>
                  forallb (fun height => 0 <? bucket_count df pitch height)
                    heights) pitches
    then Ok tt else Raise ZeroDivisionError.
Proof.
  unfold whiff_by_height.
  induction pitches as [| pitch pitches IH]; [reflexivity |].
  rewrite for_each_report_cons, res_bind. cbn [forallb].
  generalize (whiff_by_height_pitch_res df heights pitch).
  destruct (forallb _ heights); simpl.
  - destruct (whiff_by_height_pitch df heights tt pitch) as [o [[] | e]];
      simpl; [intros _; exact IH | discriminate].
  - by intros ->.
Qed.

Lemma dict_set_fresh {V} (d : list (band * V)) (k : band) (v : V) :
  k ∉ d.*1 → dict_set d k v = (d ++ [(k, v)])%list.
Proof.
  induction d as [| [k' v'] d IH]; simpl; [done |].
  rewrite not_elem_of_cons. intros [Hne Hd].
  destruct (decide (k' = k)); [done |]. by rewrite IH.
Qed.

(** On bands that are all different the dict of sizes lists them in the
    order given. *)
Lemma fold_dict_set_NoDup {V} (f : band → V) (heights : list band)
    (d : list (band * V)) :
  NoDup heights → Forall (fun height => height ∉ d.*1) heights →
  fold_left (fun d height => dict_set d height (f height)) heights d
  = (d ++ ((fun height => (height, f height)) <$> heights))%list.
Proof.
  intros Hnd. revert d.
  induction Hnd as [| height heights Hh _ IH]; intros d Hfresh; simpl.
  - by rewrite app_nil_r.
  - apply Forall_cons in Hfresh as [Hfh Hfresh].
    rewrite (dict_set_fresh _ _ _ Hfh), IH, <- app_assoc; [done |].
    eapply Forall_impl; [apply Forall_and; split; [exact Hfresh |] |].
    + apply Forall_forall. intros h Hin. exact Hin.
    + simpl. intros h [Hd Hin]. rewrite fmap_app, elem_of_app. simpl.
      intros [? | Heq%list_elem_of_singleton]; [done |]. by subst.
Qed.

Lemma fold_left_add_foldr {A} (f : A → Z) (l : list A) (acc : Z) :
  fold_left Z.add (f <$> l) acc = acc + foldr (fun x a => f x + a) 0 l.
Proof.
  revert acc. induction l as [| x l IH]; intros acc; simpl; [lia |].
  rewrite IH. lia.
Qed.

(** X17. For height bands that are all different, the frequency mapping
    the report prints for a pitch type lists the bands in the order given,
    each with its bucket size over the total of the bucket sizes. *)
Theorem whiff_by_height_frequencies
    (pitches : list string) (df : list trackman_row) (heights : list band)
    (putaway : bool) (pitch : string) (freqs : list (band * pyfloat)) :
  NoDup heights →
  PrintFreqs pitch freqs ∈ out (whiff_by_height pitches df heights putaway) →
  freqs
  = (fun height =>
       (height, Fin (Qc_of_Z (bucket_count df pitch height)
                     / Qc_of_Z (total_bucket_count df pitch heights))))
    <$> heights.
Proof.
  intros Hnd Hin. unfold whiff_by_height in Hin.
  apply for_each_report_out in Hin as ([] & pitch' & _ & Hin).
  apply whiff_by_height_pitch_freqs in Hin as (<- & sizes & Hloop & Hnorm).
  rewrite bands_loop_res in Hloop.
  destruct (forallb _ heights); [| discriminate].
  rewrite (fold_dict_set_NoDup (bucket_count df pitch)) in Hloop
    by (done || (apply Forall_forall; intros h _; apply not_elem_of_nil)).
  simpl in Hloop. injection Hloop as <-.
  assert (Hsum : sum_values ((fun height => (height, bucket_count df pitch height))
                               <$> heights)
                 = total_bucket_count df pitch heights).
  { unfold sum_values, total_bucket_count.
    rewrite <- list_fmap_compose, fold_left_add_foldr. simpl. lia. }
  rewrite Hsum in Hnorm.
  destruct heights as [| height heights]; [by injection Hnorm as <- |].
  assert (Htotal : total_bucket_count df pitch (height :: heights) ≠ 0).
  { intros Hz. rewrite Hz in Hnorm. simpl in Hnorm. discriminate. }
  rewrite (normalize_map _ _ Htotal), <- list_fmap_compose in Hnorm.
  by injection Hnorm as <-.
Qed.

Lemma whiff_by_height_frequencies_witness :
  fastball_shares
  = (fun height =>
       (height, Fin (Qc_of_Z (bucket_count three_fastballs "Fastball" height)
                     / Qc_of_Z (total_bucket_count three_fastballs "Fastball"
                                  [low_band; high_band]))))
    <$> [low_band; high_band].
Proof.
  apply (whiff_by_height_frequencies ["Fastball"] three_fastballs
           [low_band; high_band] false "Fastball" fastball_shares).
  - apply (bool_decide_unpack _). by vm_compute.
  - apply list_elem_of_In. vm_compute.
    repeat (first [left; reflexivity | right]).
Defined.

Lemma freqs_pitches_none (printed : list output) :
  Forall (fun o => is_freqs o = false) printed → freqs_pitches printed = [].
Proof.
  unfold freqs_pitches.
  induction 1 as [| o printed Ho _ IH]; [reflexivity |].
  destruct o; try discriminate; exact IH.
Qed.

Lemma freqs_pitches_app (printed printed' : list output) :
  freqs_pitches (printed ++ printed')
  = (freqs_pitches printed ++ freqs_pitches printed')%list.
Proof. unfold freqs_pitches. apply omap_app. Qed.

Lemma bands_loop_out df pitch heights freqs :
  Forall (fun o => is_freqs o = false)
    (out (for_each_report heights (whiff_by_height_band df pitch) freqs)).
Proof.
  apply Forall_forall. intros o (s' & h & _ & Hin)%for_each_report_out.
  pose proof (whiff_by_height_band_out df pitch s' h) as Hall.
  rewrite Forall_forall in Hall. by apply Hall.
Qed.

(** A pitch type whose bands all have rows gets one frequency mapping. *)
Lemma whiff_by_height_pitch_prints df heights pitch :
  res (whiff_by_height_pitch df heights tt pitch) = Ok tt →
  freqs_pitches (out (whiff_by_height_pitch df heights tt pitch)) = [pitch].
Proof.
  unfold whiff_by_height_pitch. rewrite res_bind, out_bind.
  pose proof (bands_loop_out df pitch heights []) as Hloop.
  destruct (res (for_each_report heights _ [])) as [sizes |]; [| discriminate].
  rewrite res_bind, out_bind. simpl.
  destruct (normalize sizes (sum_values sizes)) as [freqs |]; [| discriminate].
  intros _. simpl. rewrite freqs_pitches_app, (freqs_pitches_none _ Hloop).
  reflexivity.
Qed.

(** X18. A report that completes has printed one frequency mapping per
    pitch type asked for, in the order asked. *)
Theorem whiff_by_height_reports_each_pitch
    (pitches : list string) (df : list trackman_row) (heights : list band)
    (putaway : bool) :
  res (whiff_by_height pitches df heights putaway) = Ok tt →
  freqs_pitches (out (whiff_by_height pitches df heights putaway)) = pitches.
Proof.
  unfold whiff_by_height.
  induction pitches as [| pitch pitches IH]; [reflexivity |].
  rewrite for_each_report_cons, res_bind, out_bind.
  pose proof (whiff_by_height_pitch_prints df heights pitch) as Hpitch.
  destruct (res (whiff_by_height_pitch df heights tt pitch)) as [[] |];
    [| discriminate].
  intros Hrest. rewrite freqs_pitches_app, Hpitch, IH by done. reflexivity.
Qed.

Lemma whiff_by_height_reports_each_pitch_witness :
  freqs_pitches
    (out (whiff_by_height ["Fastball"; "Fastball"] three_fastballs
            [low_band; high_band] true))
  = ["Fastball"; "Fastball"].
Proof.
  apply (whiff_by_height_reports_each_pitch ["Fastball"; "Fastball"]
           three_fastballs [low_band; high_band] true).
  by vm_compute.
Defined.

(** ** parse_woba and parse_woba_denom on the same events *)

Lemma getitem_is_ok {V} (m : gmap string V) (k : string) :
  is_ok (getitem m k) ↔ k ∈ dom m.
Proof.
  unfold getitem. rewrite elem_of_dom.
  destruct (m !! k) as [v |]; simpl; split; done.
Qed.

(** X19. With a weight table and a denominator table that have the same
    keys, [parse_woba] and [parse_woba_denom] return on the same events and
    raise (a [KeyError]) on the same events. *)
Theorem parse_woba_same_events
    (row : trackman_row) (weights denoms : gmap string pyval) :
  dom weights = dom denoms →
  (is_ok (parse_woba row weights) ↔ is_ok (parse_woba_denom row denoms)).
Proof.
  intros Hdom. unfold parse_woba, parse_woba_denom.
  destruct (negb (String.eqb (play_result row) "Undefined"));
    [| destruct (negb (String.eqb (k_or_bb row) "Undefined"))];
    rewrite ?getitem_is_ok, ?Hdom; done.
Qed.

Lemma parse_woba_same_events_witness :
  is_ok (parse_woba (event_row "Double" "Undefined") woba_weights)
  ↔ is_ok (parse_woba_denom (event_row "Double" "Undefined") woba_denoms).
Proof.
  apply (parse_woba_same_events (event_row "Double" "Undefined")
           woba_weights woba_denoms).
  by vm_compute.
Defined.

(** ** percentile at not-a-number *)

(** X20. A not-a-number value ranks at 0 in any non-empty population: it
    exceeds no row. *)
Theorem percentile_of_nan (stats_by_pitcher : list rates) (stat : stat_name) :
  stats_by_pitcher ≠ [] →
  percentile NaN stats_by_pitcher stat = Ok (Fin 0).
Proof.
  intros Hne. unfold percentile. rewrite percentile_position.
  destruct stats_by_pitcher as [| r rest]; [done |].
  assert (Hnone : List.filter (fun r => fl_gtb NaN (get_stat stat r)) (r :: rest)
                  = [])
    by (apply filter_none, Forall_forall; by intros).
  assert (Hsome : forallb (fun r => fl_gtb NaN (get_stat stat r)) (r :: rest)
                  = false) by reflexivity.
  rewrite Hsome, Hnone. simpl mbind.
  rewrite py_truediv_ok.
  - do 2 f_equal. unfold Qcdiv. change (Z.of_nat 0) with 0.
    by rewrite Z2Qc_inj_0, Qcmult_0_l.
  - unfold len. rewrite insert_row_length. lia.
Qed.

Lemma percentile_of_nan_witness :
  percentile NaN population_123 Bb_rate = Ok (Fin 0).
Proof. apply (percentile_of_nan population_123 Bb_rate). discriminate. Defined.

(** X21. A population that includes a pitcher below the sample-size
    threshold, whose rates all are not-a-number, never makes [percentile]
    raise: such a row is never exceeded. It still counts in the
    denominator. *)
Theorem percentile_with_unqualified_pitcher
    (val : pyfloat) (stats_by_pitcher : list rates) (stat : stat_name) :
  nan_rates ∈ stats_by_pitcher →
  percentile val stats_by_pitcher stat
  = Ok (Fin (Qc_of_Z (count_below val stat stats_by_pitcher)
             / Qc_of_Z (len stats_by_pitcher))).
Proof.
  intros Hin. unfold percentile. rewrite percentile_position.
  assert (Hsome : forallb (fun r => fl_gtb val (get_stat stat r)) stats_by_pitcher
                  = false).
  { apply not_true_is_false. rewrite forallb_forall. intros Hall.
    apply list_elem_of_In, Hall in Hin. by destruct val, stat. }
  rewrite Hsome. simpl. unfold len. rewrite sort_values_length.
  rewrite py_truediv_ok; [reflexivity |].
  destruct stats_by_pitcher; [by apply elem_of_nil in Hin | simpl; lia].
Qed.

Lemma percentile_with_unqualified_pitcher_witness :
  percentile (Fin (tenths 9)) (nan_rates :: population_123) Woba
  = Ok (Fin (Qc_of_Z (count_below (Fin (tenths 9)) Woba
                        (nan_rates :: population_123))
             / Qc_of_Z (len (nan_rates :: population_123)))).
Proof.
  apply (percentile_with_unqualified_pitcher
           (Fin (tenths 9)) (nan_rates :: population_123) Woba).
  left.
Defined.

(** ** whiff_by_height on a pitch type with an empty band *)

Lemma empty_band_fails df pitch heights height :
  height ∈ heights → bucket_count df pitch height = 0 →
  forallb (fun height => 0 <? bucket_count df pitch height) heights = false.
Proof.
  intros Hin Hzero. apply not_true_is_false. rewrite forallb_forall.
  intros Hall. apply list_elem_of_In, Hall in Hin.
  rewrite Hzero in Hin. discriminate.
Qed.

(** A pitch type with an empty band ends the loop over the pitch types. *)
Lemma pitches_loop_raises df heights pitches :
  Exists (fun pitch =>
            forallb (fun height => 0 <? bucket_count df pitch height) heights
            = false) pitches →
  res (for_each_report pitches (whiff_by_height_pitch df heights) tt)
  = Raise ZeroDivisionError.
Proof.
  induction pitches as [| pitch pitches IH]; intros Hex;
    [by apply Exists_nil in Hex |].
  rewrite for_each_report_cons, res_bind.
  generalize (whiff_by_height_pitch_res df heights pitch).
  destruct (forallb _ heights) eqn:Hall.
  - apply Exists_cons in Hex as [Hhead | Htail]; [congruence |].
    destruct (whiff_by_height_pitch df heights tt pitch) as [o [[] | e]];
      simpl; [intros _; by apply IH | discriminate].
  - by intros ->.
Qed.

(** C9. A requested pitch type with rows in some of the supplied height
    bands and none in another gets no frequencies at all: the report raises
    [ZeroDivisionError] at the clean rate of the empty bucket, and no
    frequency mapping is printed for that pitch type, where frequencies
    that sum to 1 are asked for. *)
Theorem whiff_by_height_empty_band_raises
    (pitches : list string) (df : list trackman_row) (heights : list band)
    (putaway : bool) (pitch : string) (height : band) :
  pitch ∈ pitches → height ∈ heights →
  bucket_count df pitch height = 0 →
  res (whiff_by_height pitches df heights putaway) = Raise ZeroDivisionError
  ∧ ∀ freqs, PrintFreqs pitch freqs
             ∉ out (whiff_by_height pitches df heights putaway).
Proof.
  intros Hpitch Hheight Hzero.
  pose proof (empty_band_fails df pitch heights height Hheight Hzero) as Hfails.
  unfold whiff_by_height. split.
  - apply pitches_loop_raises, Exists_exists. by exists pitch.
  - intros freqs Hin.
    apply for_each_report_out in Hin as ([] & pitch' & _ & Hin).
    apply whiff_by_height_pitch_freqs in Hin as (<- & sizes & Hloop & _).
    rewrite bands_loop_res, Hfails in Hloop. discriminate.
Qed.

Lemma whiff_by_height_empty_band_raises_witness :
  0 < total_bucket_count three_fastballs "Fastball" [low_band; empty_band]
  ∧ res (whiff_by_height ["Fastball"] three_fastballs [low_band; empty_band] false)
    = Raise ZeroDivisionError
  ∧ ∀ freqs, PrintFreqs "Fastball" freqs
             ∉ out (whiff_by_height ["Fastball"] three_fastballs
                      [low_band; empty_band] false).
Proof.
  split; [by vm_compute |].
  apply (whiff_by_height_empty_band_raises ["Fastball"] three_fastballs
           [low_band; empty_band] false "Fastball" empty_band).
  - left.
  - right. left.
  - by vm_compute.
Defined.
